(** * The document/command engine of [editor.py]

    A shallow embedding of the command classes ([InsertCommand],
    [DeleteCommand]), of [Document] (the undo and redo stacks, the grouping of
    consecutive edits) and of the row/column computations of [EditorWindow],
    followed by the properties proved about them.

    Conventions of the embedding.
    - A Python [str] is a [list ascii]; offsets, cursors and window ids are
      Python [int]s, hence [Z].  Slices follow Python: a negative bound counts
      from the end, and every bound is clamped to the string.
    - A Python [list] used as a stack keeps the order of the source: the most
      recent entry is the LAST element ([append] adds at the end, [pop]
      removes the end).
    - Objects are passed by value.  Every command object is created at its
      call site ([insert_text], [handle_backspace], [handle_delete]) right
      before [execute_command] and is afterwards referenced from exactly one
      stack slot, so that the in-place updates of [last_cmd] are updates of
      the top entry of [undo_stack].  The [doc] field of a command is the
      document it is executed on; its content is threaded explicitly. *)

From Stdlib Require Import String Ascii ZArith List Bool Lia.
Import ListNotations.
Local Open Scope Z_scope.

(** ** Python strings *)

Definition str := list ascii.

Definition py (s : string) : str := list_ascii_of_string s.

Definition len {A : Type} (l : list A) : Z := Z.of_nat (length l).

(** The adjustment Python applies to a slice bound [i] on a sequence of
    length [n]: a negative bound is taken from the end, then clamped. *)
Definition clamp_index (n i : Z) : Z :=
  if i <? 0 then Z.max 0 (i + n) else Z.min i n.

(** [s[:i]] *)
Definition slice_to {A : Type} (s : list A) (i : Z) : list A :=
  firstn (Z.to_nat (clamp_index (len s) i)) s.

(** [s[i:]] *)
Definition slice_from {A : Type} (s : list A) (i : Z) : list A :=
  skipn (Z.to_nat (clamp_index (len s) i)) s.

(** [s[i:j]] *)
Definition slice {A : Type} (s : list A) (i j : Z) : list A :=
  let lo := clamp_index (len s) i in
  let hi := clamp_index (len s) j in
  firstn (Z.to_nat (hi - lo)) (skipn (Z.to_nat lo) s).

Definition newline : ascii := ascii_of_nat 10.
Definition carriage_return : ascii := ascii_of_nat 13.

(** [s.split(sep)] for a one-character separator: never the empty list. *)
Fixpoint split (sep : ascii) (s : str) : list str :=
  match s with
  | [] => [[]]
  | ch :: s' =>
      if Ascii.eqb ch sep then [] :: split sep s'
      else match split sep s' with
           | line :: lines => (ch :: line) :: lines
           | [] => [[ch]]
           end
  end.

(** [s.replace('\r\n', '\n')] *)
Fixpoint replace_crlf (s : str) : str :=
  match s with
  | [] => []
  | ch :: s' =>
      match s' with
      | ch' :: s'' =>
          if Ascii.eqb ch carriage_return && Ascii.eqb ch' newline
          then newline :: replace_crlf s''
          else ch :: replace_crlf s'
      | [] => [ch]
      end
  end.

(** ** Commands *)

(** The tuple [(selection_start, selection_end)] a view passes, or [None]. *)
Definition selection := option (option Z * option Z).

(** The fields of the base class [Command] (without [doc]). *)
Record CommandBase := mkBase {
  cursor_before : Z;
  selection_before : selection;
  window_id : Z;
  cursor_after : option Z;
  selection_after : selection
}.

Inductive Command :=
| InsertCommand (b : CommandBase) (text : str) (pos : Z)
| DeleteCommand (b : CommandBase) (start end_ : Z) (deleted_text : str).

Definition base (c : Command) : CommandBase :=
  match c with
  | InsertCommand b _ _ => b
  | DeleteCommand b _ _ _ => b
  end.

(** [Command.__init__] *)
Definition Command_init (cursor_pos : Z) (sel : selection) (wid : Z) : CommandBase :=
  mkBase cursor_pos sel wid None None.

(** [InsertCommand.__init__] *)
Definition InsertCommand_init (text : str) (pos cursor_pos : Z) (sel : selection)
    (wid : Z) : Command :=
  InsertCommand (Command_init cursor_pos sel wid) text pos.

(** [DeleteCommand.__init__]: reads [doc.content[start:end]]. *)
Definition DeleteCommand_init (content : str) (start end_ cursor_pos : Z)
    (sel : selection) (wid : Z) : Command :=
  DeleteCommand (Command_init cursor_pos sel wid) start end_ (slice content start end_).

Definition set_after (b : CommandBase) (cur : Z) (sel : selection) : CommandBase :=
  mkBase (cursor_before b) (selection_before b) (window_id b) (Some cur) sel.

(** [execute]: the command with [cursor_after]/[selection_after] assigned, the
    new [doc.content] and the returned pair. *)
Definition execute (c : Command) (content : str) : Command * str * (Z * selection) :=
  match c with
  | InsertCommand b text pos =>
      let content' := slice_to content pos ++ text ++ slice_from content pos in
      let cur := pos + len text in
      (InsertCommand (set_after b cur None) text pos, content', (cur, None))
  | DeleteCommand b start end_ deleted_text =>
      let content' := slice_to content start ++ slice_from content end_ in
      (DeleteCommand (set_after b start None) start end_ deleted_text, content',
       (start, None))
  end.

(** [undo]: the new [doc.content] and the returned pair. *)
Definition undo_command (c : Command) (content : str) : str * (Z * selection) :=
  match c with
  | InsertCommand b text pos =>
      (slice_to content pos ++ slice_from content (pos + len text),
       (cursor_before b, selection_before b))
  | DeleteCommand b start end_ deleted_text =>
      (slice_to content start ++ deleted_text ++ slice_from content start,
       (cursor_before b, selection_before b))
  end.

(** ** Document *)

Inductive CommandType := InsertCommandT | DeleteCommandT.

Definition type_of (c : Command) : CommandType :=
  match c with
  | InsertCommand _ _ _ => InsertCommandT
  | DeleteCommand _ _ _ _ => DeleteCommandT
  end.

Definition CommandType_eqb (a b : CommandType) : bool :=
  match a, b with
  | InsertCommandT, InsertCommandT | DeleteCommandT, DeleteCommandT => true
  | _, _ => false
  end.

(** The fields of [Document] its history operations read or write
    ([filename] and [windows] play no part in them). *)
Record Document := mkDocument {
  content : str;
  undo_stack : list Command;
  redo_stack : list Command;
  last_command_type : option CommandType
}.

(** [Document.__init__]: [file] is the text of the file when it exists. *)
Definition Document_init (file : option str) : Document :=
  mkDocument (match file with Some s => replace_crlf s | None => [] end) [] [] None.

(** [stack.pop()] on a non-empty list, together with the remaining list;
    the popped element is also [stack[-1]]. *)
Fixpoint pop {A : Type} (l : list A) : option (list A * A) :=
  match l with
  | [] => None
  | x :: l' =>
      match pop l' with
      | None => Some ([], x)
      | Some (r, y) => Some (x :: r, y)
      end
  end.

(** [Document.can_group_with_last] *)
Definition can_group_with_last (d : Document) (command : Command) : bool :=
  match pop (undo_stack d) with
  | None => false
  | Some (_, last_cmd) =>
      if negb (CommandType_eqb (type_of command) (type_of last_cmd)) then false
      else if negb (window_id (base command) =? window_id (base last_cmd)) then false
      else true
  end.

(** The tail shared by the three merging branches of [execute_command]:
    [command.execute()], the assignment of [last_cmd.cursor_after] and
    [last_cmd.selection_after], [redo_stack.clear()]. [merged] is [last_cmd]
    after its text or range was extended. *)
Definition finish_merge (d : Document) (rest : list Command) (command : Command)
    (merged : CommandBase -> Command) (lb : CommandBase)
    : Document * (Z * selection) :=
  let '(_, content', (cursor, sel)) := execute command (content d) in
  (mkDocument content' (rest ++ [merged (set_after lb cursor sel)]) []
     (last_command_type d),
   (cursor, sel)).

(** Lines 103-107 of [execute_command]: a new entry is pushed. *)
Definition push_command (d : Document) (command : Command)
    : Document * (Z * selection) :=
  let '(command', content', (cursor, sel)) := execute command (content d) in
  (mkDocument content' (undo_stack d ++ [command']) [] (Some (type_of command)),
   (cursor, sel)).

(** [Document.execute_command] *)
Definition execute_command (d : Document) (command : Command)
    : Document * (Z * selection) :=
  if can_group_with_last d command then
    match pop (undo_stack d) with
    | Some (rest, last_cmd) =>
        match command, last_cmd with
        | InsertCommand _ ctext cpos, InsertCommand lb ltext lpos =>
            if cpos =? lpos + len ltext then
              finish_merge d rest command
                (fun b => InsertCommand b (ltext ++ ctext) lpos) lb
            else push_command d command
        | DeleteCommand _ cstart cend cdel, DeleteCommand lb lstart lend ldel =>
            if cend =? lstart then
              finish_merge d rest command
                (fun b => DeleteCommand b cstart lend (cdel ++ ldel)) lb
            else if cstart =? lstart then
              finish_merge d rest command
                (fun b => DeleteCommand b lstart cend (ldel ++ cdel)) lb
            else push_command d command
        | _, _ => push_command d command
        end
    | None => push_command d command
    end
  else push_command d command.

(** What [Document.undo] and [Document.redo] return: the pair [(None, None)]
    or a triple [(cursor, selection, command.window_id)]. *)
Inductive HistoryResult :=
| NoneNone
| Moved (cursor : Z) (sel : selection) (wid : Z).

(** [Document.undo]; the argument [window_id] is not used by the source. *)
Definition undo (d : Document) (wid : Z) : Document * HistoryResult :=
  match pop (undo_stack d) with
  | None => (d, NoneNone)
  | Some (rest, command) =>
      let '(content', (cursor, sel)) := undo_command command (content d) in
      (mkDocument content' rest (redo_stack d ++ [command]) (last_command_type d),
       Moved cursor sel (window_id (base command)))
  end.

(** [Document.redo] *)
Definition redo (d : Document) (wid : Z) : Document * HistoryResult :=
  match pop (redo_stack d) with
  | None => (d, NoneNone)
  | Some (rest, command) =>
      let '(command', content', (cursor, sel)) := execute command (content d) in
      (mkDocument content' (undo_stack d ++ [command']) rest (last_command_type d),
       Moved cursor sel (window_id (base command)))
  end.

(** ** Requests

    The views turn an edit into a command and record it in one go:
    [cmd = InsertCommand(self.document, ...)] (or [DeleteCommand]) followed by
    [self.document.execute_command(cmd)].  A request is the argument list of
    the constructor. *)

Inductive Request :=
| InsertRequest (text : str) (at_offset cursor_pos : Z) (sel : selection) (wid : Z)
| DeleteRequest (start end_ cursor_pos : Z) (sel : selection) (wid : Z).

Definition build_command (c : str) (r : Request) : Command :=
  match r with
  | InsertRequest text at_offset cursor_pos sel wid =>
      InsertCommand_init text at_offset cursor_pos sel wid
  | DeleteRequest start end_ cursor_pos sel wid =>
      DeleteCommand_init c start end_ cursor_pos sel wid
  end.

Definition apply_request (d : Document) (r : Request) : Document * (Z * selection) :=
  execute_command d (build_command (content d) r).

Definition request_cursor (r : Request) : Z :=
  match r with
  | InsertRequest _ _ cursor_pos _ _ => cursor_pos
  | DeleteRequest _ _ cursor_pos _ _ => cursor_pos
  end.

Definition request_selection (r : Request) : selection :=
  match r with
  | InsertRequest _ _ _ sel _ => sel
  | DeleteRequest _ _ _ sel _ => sel
  end.

Definition request_window (r : Request) : Z :=
  match r with
  | InsertRequest _ _ _ _ wid => wid
  | DeleteRequest _ _ _ _ wid => wid
  end.

(** The offsets of a request lie within the buffer [c]. *)
Definition in_range (c : str) (r : Request) : bool :=
  match r with
  | InsertRequest _ at_offset _ _ _ => (0 <=? at_offset) && (at_offset <=? len c)
  | DeleteRequest start end_ _ _ _ =>
      (0 <=? start) && (start <=? end_) && (end_ <=? len c)
  end.

Definition apply_all (d : Document) (rs : list Request) : Document :=
  fold_left (fun d r => fst (apply_request d r)) rs d.

(** Every request of [rs] is in range for the buffer it meets. *)
Fixpoint valid_requests (d : Document) (rs : list Request) : bool :=
  match rs with
  | [] => true
  | r :: rs' => in_range (content d) r && valid_requests (fst (apply_request d r)) rs'
  end.

(** [n] calls of [Document.undo], with what each returned, in call order. *)
Fixpoint undo_times (n : nat) (d : Document) (wid : Z) : Document * list HistoryResult :=
  match n with
  | O => (d, [])
  | S n' =>
      let '(d1, r) := undo d wid in
      let '(d2, rs) := undo_times n' d1 wid in
      (d2, r :: rs)
  end.

(** The last result of a list of calls that was not [(None, None)]. *)
Fixpoint last_moved (rs : list HistoryResult) : option HistoryResult :=
  match rs with
  | [] => None
  | r :: rs' =>
      match last_moved rs' with
      | Some m => Some m
      | None => match r with NoneNone => None | Moved _ _ _ => Some r end
      end
  end.

(** The forward effect of every command of a stack, oldest first. *)
Definition replay (c0 : str) (stack : list Command) : str :=
  fold_left (fun c cmd => snd (fst (execute cmd c))) stack c0.

(** The request is merged by the branch [command.start == last_cmd.start]
    (the Delete key) of [execute_command]. *)
Definition forward_delete_merge (d : Document) (r : Request) : bool :=
  can_group_with_last d (build_command (content d) r) &&
  match build_command (content d) r, pop (undo_stack d) with
  | DeleteCommand _ cstart cend _, Some (_, DeleteCommand _ lstart _ _) =>
      negb (cend =? lstart) && (cstart =? lstart)
  | _, _ => false
  end.

(** The states a document goes through: loaded, then any number of requests
    admitted by [ok], of undos and of redos. *)
Inductive reachable (ok : Document -> Request -> bool) (file : option str)
    : Document -> Prop :=
| reach_init : reachable ok file (Document_init file)
| reach_apply d r :
    reachable ok file d -> ok d r = true -> reachable ok file (fst (apply_request d r))
| reach_undo d wid : reachable ok file d -> reachable ok file (fst (undo d wid))
| reach_redo d wid : reachable ok file d -> reachable ok file (fst (redo d wid)).

Definition any_request (d : Document) (r : Request) : bool := true.

Definition plain_request (d : Document) (r : Request) : bool :=
  in_range (content d) r && negb (forward_delete_merge d r).

(** ** Row and column *)

(** The loop of [get_position_from_index]; [None] when it runs to its end. *)
Fixpoint position_loop (lines : list str) (row current_pos pos : Z) : option (Z * Z) :=
  match lines with
  | [] => None
  | line :: lines' =>
      if pos <=? current_pos + len line then Some (row + 1, pos - current_pos)
      else position_loop lines' (row + 1) (current_pos + len line + 1) pos
  end.

(** [EditorWindow.get_position_from_index] *)
Definition get_position_from_index (content : str) (pos : Z) : Z * Z :=
  let lines := split newline content in
  match position_loop lines 0 0 pos with
  | Some rc => rc
  | None => (len lines, match lines with [] => 0 | _ => len (last lines []) end)
  end.

(** [l[i]] with Python's negative indices; [None] is [IndexError]. *)
Definition py_index {A : Type} (l : list A) (i : Z) : option A :=
  if 0 <=? i then nth_error l (Z.to_nat i)
  else if 0 <=? i + len l then nth_error l (Z.to_nat (i + len l))
  else None.

(** [EditorWindow.get_index_from_position] from the point where the widget
    has answered with the index [row.col]: the absolute position, or [None]
    when [lines[row - 1]] raises [IndexError]. *)
Definition get_index_from_position (content : str) (row col : Z) : option Z :=
  let lines := split newline content in
  let pos :=
    fold_left
      (fun pos i =>
         if Z.of_nat i <? len lines then pos + len (nth i lines []) + 1 else pos)
      (seq 0 (Z.to_nat (row - 1))) 0 in
  if row - 1 <? len lines then
    match py_index lines (row - 1) with
    | Some line => Some (pos + Z.min col (len line))
    | None => None
    end
  else Some (pos + Z.min col 0).

(** ** Invariants of the history *)

(** [cmd] leads from the buffer [c0] to the buffer [c1]: what its [undo]
    relies on. *)
Definition linked (cmd : Command) (c0 c1 : str) : Prop :=
  match cmd with
  | InsertCommand _ text pos =>
      exists pre post, c0 = pre ++ post /\ c1 = pre ++ text ++ post /\ pos = len pre
  | DeleteCommand _ start _ deleted_text =>
      exists pre post,
        c0 = pre ++ deleted_text ++ post /\ c1 = pre ++ post /\ start = len pre
  end.

(** The range of a delete command spans its [deleted_text]: what its
    [execute] relies on when it runs again. *)
Definition exact (cmd : Command) : Prop :=
  match cmd with
  | InsertCommand _ _ _ => True
  | DeleteCommand _ start end_ deleted_text => end_ = start + len deleted_text
  end.

(** One step of a history: always [linked]; in a [strict] history also
    [exact]. *)
Definition sound (strict : bool) (cmd : Command) (c0 c1 : str) : Prop :=
  linked cmd c0 c1 /\ (strict = true -> exact cmd).

(** The commands of [stack], oldest first, lead from [c0] to [c], each
    step satisfying [P]. *)
Fixpoint chain (P : Command -> str -> str -> Prop) (c0 : str) (stack : list Command)
    (c : str) : Prop :=
  match stack with
  | [] => c0 = c
  | cmd :: stack' => exists c1, P cmd c0 c1 /\ chain P c1 stack' c
  end.

(** Both stacks of [d] are strict histories: the undo stack leads from the
    loaded text [c0] to the content, the redo stack (next redo last) leads on
    from the content. *)
Definition history_ok (c0 : str) (d : Document) : Prop :=
  chain (sound true) c0 (undo_stack d) (content d) /\
  exists c_end, chain (sound true) (content d) (rev (redo_stack d)) c_end.

(** Two commands with the same saved cursor, saved selection and view. *)
Definition same_origin (a b : Command) : Prop :=
  cursor_before (base a) = cursor_before (base b) /\
  selection_before (base a) = selection_before (base b) /\
  window_id (base a) = window_id (base b).

(** The oldest entry of [stack] carries the cursor, selection and view of
    the request [r]. *)
Definition bottom_of (r : Request) (stack : list Command) : Prop :=
  match stack with
  | [] => False
  | cmd :: _ =>
      cursor_before (base cmd) = request_cursor r /\
      selection_before (base cmd) = request_selection r /\
      window_id (base cmd) = request_window r
  end.

(** ** The windows of a document *)

(** A window object as [Document.windows] holds it: [obj] is the identity of
    the object ([in], [remove] and [!=] compare windows by identity),
    [win_id] its [window_id]. *)
Record Window := mkWindow {
  obj : nat;
  win_id : Z
}.

Definition same_window (a b : Window) : bool := Nat.eqb (obj a) (obj b).

(** [list.remove(x)] on a list that holds [x]: the first occurrence goes. *)
Fixpoint remove_first (w : Window) (ws : list Window) : list Window :=
  match ws with
  | [] => []
  | x :: ws' => if same_window x w then ws' else x :: remove_first w ws'
  end.

(** [Document.register_window] *)
Definition register_window (ws : list Window) (w : Window) : list Window :=
  ws ++ [w].

(** [Document.unregister_window] *)
Definition unregister_window (ws : list Window) (w : Window) : list Window :=
  if existsb (fun x => same_window x w) ws then remove_first w ws else ws.

(** [Document.notify_windows]: the windows whose [refresh_display] is
    called, in call order. *)
Definition notify_windows (ws : list Window) (exclude_window : option Window)
    : list Window :=
  filter
    (fun w =>
       match exclude_window with
       | None => true
       | Some x => negb (same_window w x)
       end)
    ws.

(** [EditorWindow.open_new_window]: [o] is the identity of the window object
    that is created. *)
Definition open_new_window (ws : list Window) (o : nat) : list Window :=
  register_window ws (mkWindow o (len ws)).

(** What [on_close] does to the closing window after it is unregistered. *)
Inductive CloseAction := Quit | Destroy.

(** [EditorWindow.on_close] *)
Definition on_close (ws : list Window) (self : Window) : list Window * CloseAction :=
  let ws' := unregister_window ws self in
  (ws', match ws' with [] => Quit | _ => Destroy end).

(** ** The state of a window and its handlers

    The handlers of [EditorWindow] as functions of the fields they read and
    write and of the document.  The calls into the widget
    ([refresh_display], [ensure_cursor_visible], [notify_windows]) change
    none of these fields and are left out. *)

Inductive exn := TypeError | IndexError.

(** A handler returns, or raises with the fields as they are then. *)
Inductive outcome (A : Type) :=
| Done (a : A)
| Raised (e : exn) (a : A).
Arguments Done {A} a.
Arguments Raised {A} e a.

Inductive ArrowKey := Left | Right | Up | Down.

Module EditorWindow.

Record state := mkState {
  window_id : Z;
  cursor_pos : Z;
  selection_start : option Z;
  selection_end : option Z;
  cursor_x_goal : option Z;
  drag_start : option Z;
  shift_drag_anchor : option Z
}.

(** The fields [__init__] sets. *)
Definition init (wid : Z) : state := mkState wid 0 None None None None None.

Definition with_cursor (s : state) (pos : Z) : state :=
  mkState (window_id s) pos (selection_start s) (selection_end s)
    (cursor_x_goal s) (drag_start s) (shift_drag_anchor s).

Definition with_selection (s : state) (a b : option Z) : state :=
  mkState (window_id s) (cursor_pos s) a b
    (cursor_x_goal s) (drag_start s) (shift_drag_anchor s).

Definition with_x_goal (s : state) (g : option Z) : state :=
  mkState (window_id s) (cursor_pos s) (selection_start s) (selection_end s)
    g (drag_start s) (shift_drag_anchor s).

(** [on_click], from the position [get_index_from_position] returned. *)
Definition on_click (s : state) (pos : Z) : state :=
  mkState (window_id s) pos (Some pos) None None (Some pos) (Some pos).

(** [on_drag], from the position [get_index_from_position] returned. *)
Definition on_drag (s : state) (current_pos : Z) : state :=
  match drag_start s with
  | None => s
  | Some start =>
      let s1 := with_cursor s current_pos in
      if negb (current_pos =? start)
      then with_selection s1 (Some (Z.min start current_pos))
                             (Some (Z.max start current_pos))
      else with_selection s1 (selection_start s1) None
  end.

(** [on_shift_click], from the position [get_index_from_position] returned. *)
Definition on_shift_click (s : state) (current_pos : Z) : state :=
  match shift_drag_anchor s with
  | None => s
  | Some anchor =>
      with_selection (with_cursor s current_pos)
        (Some (Z.min anchor current_pos)) (Some (Z.max anchor current_pos))
  end.

(** The block the three editing handlers run when [selection_end] is [e]:
    the selection is deleted and the cursor takes the returned position.
    [min(None, e)] raises [TypeError]. *)
Definition delete_selection (s : state) (d : Document) (e : Z)
    : outcome (state * Document) :=
  match selection_start s with
  | None => Raised TypeError (s, d)
  | Some a =>
      let '(d', (cur, _)) :=
        apply_request d
          (DeleteRequest (Z.min a e) (Z.max a e) (cursor_pos s)
             (Some (Some a, Some e)) (window_id s)) in
      Done (with_cursor s cur, d')
  end.

(** The end of the three editing handlers: selection and goal column are
    dropped. *)
Definition settle (s : state) : state :=
  with_x_goal (with_selection s None None) None.

(** Lines 296-301 of [insert_text]. *)
Definition type_text (s : state) (d : Document) (text : str) : state * Document :=
  let '(d', (cur, _)) :=
    apply_request d
      (InsertRequest text (cursor_pos s) (cursor_pos s)
         (Some (selection_start s, selection_end s)) (window_id s)) in
  (settle (with_cursor s cur), d').

(** [EditorWindow.insert_text] *)
Definition insert_text (s : state) (d : Document) (text : str)
    : outcome (state * Document) :=
  match selection_end s with
  | Some e =>
      match delete_selection s d e with
      | Raised x sd => Raised x sd
      | Done (s1, d1) => Done (type_text (with_selection s1 None None) d1 text)
      end
  | None => Done (type_text s d text)
  end.

(** [EditorWindow.handle_backspace] *)
Definition handle_backspace (s : state) (d : Document) : outcome (state * Document) :=
  match selection_end s with
  | Some e =>
      match delete_selection s d e with
      | Raised x sd => Raised x sd
      | Done (s1, d1) => Done (settle s1, d1)
      end
  | None =>
      if 0 <? cursor_pos s then
        let '(d', (cur, _)) :=
          apply_request d
            (DeleteRequest (cursor_pos s - 1) (cursor_pos s) (cursor_pos s)
               (Some (selection_start s, selection_end s)) (window_id s)) in
        Done (settle (with_cursor s cur), d')
      else Done (settle s, d)
  end.

(** [EditorWindow.handle_delete] *)
Definition handle_delete (s : state) (d : Document) : outcome (state * Document) :=
  match selection_end s with
  | Some e =>
      match delete_selection s d e with
      | Raised x sd => Raised x sd
      | Done (s1, d1) => Done (settle s1, d1)
      end
  | None =>
      if cursor_pos s <? len (content d) then
        let '(d', (cur, _)) :=
          apply_request d
            (DeleteRequest (cursor_pos s) (cursor_pos s + 1) (cursor_pos s)
               (Some (selection_start s, selection_end s)) (window_id s)) in
        Done (settle (with_cursor s cur), d')
      else Done (settle s, d)
  end.

(** The loop of the Up/Down branch: the rows above row [k + 1]. *)
Definition rows_before (lines : list str) (k : nat) : Z :=
  fold_left (fun pos i => pos + len (nth i lines []) + 1) (seq 0 k) 0.

(** [EditorWindow.handle_arrow_key] on the buffer [c]. *)
Definition handle_arrow_key (s : state) (c : str) (key : ArrowKey) : outcome state :=
  let s0 := with_selection s None None in
  match key with
  | Left =>
      if 0 <? cursor_pos s0 then
        let s1 := with_cursor s0 (cursor_pos s0 - 1) in
        if 0 <? cursor_pos s1 then
          match py_index c (cursor_pos s1) with
          | None => Raised IndexError s1
          | Some _ => Done (with_x_goal s1 None)
          end
        else Done (with_x_goal s1 None)
      else Done (with_x_goal s0 None)
  | Right =>
      if cursor_pos s0 <? len c then
        let s1 := with_cursor s0 (cursor_pos s0 + 1) in
        if cursor_pos s1 <? len c then
          match py_index c (cursor_pos s1 - 1) with
          | None => Raised IndexError s1
          | Some _ => Done (with_x_goal s1 None)
          end
        else Done (with_x_goal s1 None)
      else Done (with_x_goal s0 None)
  | Up | Down =>
      let '(row, col) := get_position_from_index c (cursor_pos s0) in
      let goal := match cursor_x_goal s0 with None => col | Some g => g end in
      let s1 := with_x_goal s0 (Some goal) in
      let row := match key with Up => row - 1 | _ => row + 1 end in
      let lines := split newline c in
      if (0 <=? row - 1) && (row - 1 <? len lines) then
        let col := Z.min goal (len (nth (Z.to_nat (row - 1)) lines [])) in
        Done (with_cursor s1 (rows_before lines (Z.to_nat (row - 1)) + col))
      else Done s1
  end.

(** [EditorWindow.copy]: the text appended to the clipboard, if any. *)
Definition copy (s : state) (c : str) : outcome (option str) :=
  match selection_end s with
  | None => Done None
  | Some e =>
      match selection_start s with
      | None => Raised TypeError None
      | Some a => Done (Some (slice c (Z.min a e) (Z.max a e)))
      end
  end.

(** The part [undo] and [redo] share: what a result of the document does to
    the window. *)
Definition take_result (s : state) (r : HistoryResult) : state :=
  match r with
  | NoneNone => s
  | Moved cursor sel wid =>
      if wid =? window_id s then
        match sel with
        | Some (a, b) => with_selection (with_cursor s cursor) a b
        | None => with_selection (with_cursor s cursor) None None
        end
      else s
  end.

(** [EditorWindow.undo] *)
Definition undo (s : state) (d : Document) : state * Document :=
  let '(d', r) := undo d (window_id s) in (take_result s r, d').

(** [EditorWindow.redo] *)
Definition redo (s : state) (d : Document) : state * Document :=
  let '(d', r) := redo d (window_id s) in (take_result s r, d').

End EditorWindow.

(** ** Invariants of the windows and of the stored commands *)

(** [cursor_after] and [selection_after] of a command hold what its
    [execute] assigns. *)
Definition settled (cmd : Command) : Prop :=
  match cmd with
  | InsertCommand b text pos =>
      cursor_after b = Some (pos + len text) /\ selection_after b = None
  | DeleteCommand b start _ _ =>
      cursor_after b = Some start /\ selection_after b = None
  end.

(** The cursor of a window lies within the buffer [c]. *)
Definition cursor_in_buffer (s : EditorWindow.state) (c : str) : Prop :=
  0 <= EditorWindow.cursor_pos s <= len c.

(** The goal column of a window, when it has one, is a column. *)
Definition goal_is_column (s : EditorWindow.state) : Prop :=
  match EditorWindow.cursor_x_goal s with
  | None => True
  | Some g => 0 <= g
  end.

(** [n] calls of [handle_backspace]; a call that raises ends the run. *)
Fixpoint backspace_times (n : nat) (s : EditorWindow.state) (d : Document)
    : outcome (EditorWindow.state * Document) :=
  match n with
  | O => Done (s, d)
  | S n' =>
      match EditorWindow.handle_backspace s d with
      | Done (s1, d1) => backspace_times n' s1 d1
      | Raised x sd => Raised x sd
      end
  end.

(** The characters [lines] take up in the buffer, each line counted with
    the newline that ends it. *)
Definition span (lines : list str) : Z :=
  fold_right (fun line acc => len line + 1 + acc) 0 lines.

(** * Properties *)

(** ** Slices *)

Section Slices.
Context {A : Type}.
Implicit Types s pre mid post : list A.

Lemma len_app s1 s2 : len (s1 ++ s2) = len s1 + len s2.
Proof. unfold len. rewrite length_app. lia. Qed.

Lemma len_cons (x : A) s : len (x :: s) = len s + 1.
Proof. unfold len. simpl length. lia. Qed.

Lemma len_nonneg s : 0 <= len s.
Proof. unfold len. lia. Qed.

Lemma clamp_index_inside n i : 0 <= i <= n -> clamp_index n i = i.
Proof.
  intros H. unfold clamp_index.
  destruct (Z.ltb_spec i 0); lia.
Qed.

Lemma clamp_index_beyond n i : 0 <= n <= i -> clamp_index n i = n.
Proof.
  intros H. unfold clamp_index.
  destruct (Z.ltb_spec i 0); lia.
Qed.

Lemma slice_to_eq s pre post i :
  s = pre ++ post -> i = len pre -> slice_to s i = pre.
Proof.
  intros -> ->. unfold slice_to.
  rewrite clamp_index_inside by (rewrite len_app; pose proof (len_nonneg pre);
                                 pose proof (len_nonneg post); lia).
  unfold len. rewrite Nat2Z.id, firstn_app, Nat.sub_diag, firstn_all.
  simpl. apply app_nil_r.
Qed.

Lemma slice_from_eq s pre post i :
  s = pre ++ post -> i = len pre -> slice_from s i = post.
Proof.
  intros -> ->. unfold slice_from.
  rewrite clamp_index_inside by (rewrite len_app; pose proof (len_nonneg pre);
                                 pose proof (len_nonneg post); lia).
  unfold len. rewrite Nat2Z.id, skipn_app, Nat.sub_diag, skipn_all.
  reflexivity.
Qed.

Lemma slice_eq s pre mid post i j :
  s = pre ++ mid ++ post -> i = len pre -> j = len pre + len mid ->
  slice s i j = mid.
Proof.
  intros -> -> ->. unfold slice.
  pose proof (len_nonneg pre). pose proof (len_nonneg mid).
  pose proof (len_nonneg post).
  rewrite !clamp_index_inside by (rewrite !len_app; lia).
  replace (len pre + len mid - len pre) with (len mid) by lia.
  unfold len. rewrite !Nat2Z.id, skipn_app, Nat.sub_diag, skipn_all.
  simpl. rewrite firstn_app, Nat.sub_diag, firstn_all. simpl. apply app_nil_r.
Qed.

(** A buffer cut at an offset within it. *)
Lemma cut_at s i :
  0 <= i <= len s -> exists pre post, s = pre ++ post /\ len pre = i.
Proof.
  intros H. exists (firstn (Z.to_nat i) s), (skipn (Z.to_nat i) s). split.
  - symmetry. apply firstn_skipn.
  - unfold len in *. rewrite length_firstn. lia.
Qed.

(** A buffer cut at the two ends of a range within it. *)
Lemma cut_range s i j :
  0 <= i -> i <= j -> j <= len s ->
  exists pre mid post, s = pre ++ mid ++ post /\ len pre = i /\ len mid = j - i.
Proof.
  intros Hi Hij Hj.
  destruct (cut_at s i) as (pre & rest & -> & Hpre); [lia|].
  rewrite len_app in Hj.
  destruct (cut_at rest (j - i)) as (mid & post & -> & Hmid); [lia|].
  exists pre, mid, post. auto.
Qed.

Lemma slice_to_from s i : slice_to s i ++ slice_from s i = s.
Proof. apply firstn_skipn. Qed.

Lemma slice_to_beyond s i : len s <= i -> slice_to s i = s.
Proof.
  intros H. unfold slice_to. pose proof (len_nonneg s).
  rewrite clamp_index_beyond by lia. unfold len. rewrite Nat2Z.id.
  apply firstn_all.
Qed.

Lemma slice_from_beyond s i : len s <= i -> slice_from s i = [].
Proof.
  intros H. unfold slice_from. pose proof (len_nonneg s).
  rewrite clamp_index_beyond by lia. unfold len. rewrite Nat2Z.id.
  apply skipn_all.
Qed.
End Slices.

(** Side conditions of [slice_to_eq], [slice_from_eq] and [slice_eq]. *)
Ltac slice_side :=
  rewrite ?len_app in *; rewrite <- ?app_assoc;
  first [reflexivity | lia | cbn; lia].

(** ** Stacks *)

Section Stacks.
Context {A : Type}.

Lemma pop_snoc (l : list A) (x : A) : pop (l ++ [x]) = Some (l, x).
Proof.
  induction l as [|y l IH]; simpl; [reflexivity|].
  rewrite IH. reflexivity.
Qed.

Lemma pop_Some (l r : list A) (x : A) : pop l = Some (r, x) -> l = r ++ [x].
Proof.
  revert r. induction l as [|y l IH]; simpl; intros r H; [discriminate|].
  destruct (pop l) as [[r' z]|] eqn:E.
  - inversion H; subst. simpl. f_equal. apply IH. reflexivity.
  - destruct l as [|z l']; [inversion H; reflexivity|].
    simpl in E. destruct (pop l') as [[? ?]|]; discriminate.
Qed.

Lemma pop_None (l : list A) : pop l = None -> l = [].
Proof.
  destruct l as [|y l]; simpl; [reflexivity|].
  destruct (pop l) as [[? ?]|]; discriminate.
Qed.
End Stacks.

Lemma chain_app P c0 s1 s2 c :
  chain P c0 (s1 ++ s2) c <-> exists c', chain P c0 s1 c' /\ chain P c' s2 c.
Proof.
  revert c0. induction s1 as [|cmd s1 IH]; simpl; intros c0.
  - split.
    + intros H. exists c0. auto.
    + intros (c' & -> & H). exact H.
  - split.
    + intros (c1 & HP & H). apply IH in H. destruct H as (c' & H1 & H2).
      exists c'. split; [exists c1; auto | exact H2].
    + intros (c' & (c1 & HP & H1) & H2). exists c1. split; [exact HP|].
      apply IH. exists c'. auto.
Qed.

Lemma chain_snoc P c0 stack cmd c :
  chain P c0 (stack ++ [cmd]) c <-> exists c', chain P c0 stack c' /\ P cmd c' c.
Proof.
  rewrite chain_app. simpl. split.
  - intros (c' & H & c1 & HP & ->). exists c'. auto.
  - intros (c' & H & HP). exists c'. split; [exact H|]. exists c. auto.
Qed.

(** ** A command and its inverse *)

Lemma linked_undo cmd c0 c1 : linked cmd c0 c1 -> fst (undo_command cmd c1) = c0.
Proof.
  destruct cmd as [b text pos | b start end_ deleted_text]; simpl.
  - intros (pre & post & -> & -> & ->).
    rewrite (slice_to_eq _ pre (text ++ post)) by reflexivity.
    rewrite (slice_from_eq _ (pre ++ text) post)
      by slice_side.
    reflexivity.
  - intros (pre & post & -> & -> & ->).
    rewrite (slice_to_eq _ pre post), (slice_from_eq _ pre post) by reflexivity.
    reflexivity.
Qed.

Lemma linked_execute cmd c0 c1 :
  linked cmd c0 c1 -> exact cmd -> snd (fst (execute cmd c0)) = c1.
Proof.
  destruct cmd as [b text pos | b start end_ deleted_text]; simpl.
  - intros (pre & post & -> & -> & ->) _.
    rewrite (slice_to_eq _ pre post), (slice_from_eq _ pre post) by reflexivity.
    reflexivity.
  - intros (pre & post & -> & -> & ->) ->.
    rewrite (slice_to_eq _ pre (deleted_text ++ post)) by reflexivity.
    rewrite (slice_from_eq _ (pre ++ deleted_text) post)
      by slice_side.
    reflexivity.
Qed.

(** [undo] returns the cursor and the selection saved at construction. *)
Lemma undo_command_returns cmd c :
  undo_command cmd c =
    (fst (undo_command cmd c), (cursor_before (base cmd), selection_before (base cmd))).
Proof. destruct cmd; reflexivity. Qed.

(** [execute] assigns [cursor_after] and [selection_after] only. *)
Lemma sound_execute strict cmd c c0 c1 :
  sound strict (fst (fst (execute cmd c))) c0 c1 <-> sound strict cmd c0 c1.
Proof. destruct cmd; simpl; reflexivity. Qed.

Lemma base_execute cmd c :
  cursor_before (base (fst (fst (execute cmd c)))) = cursor_before (base cmd) /\
  selection_before (base (fst (fst (execute cmd c)))) = selection_before (base cmd) /\
  window_id (base (fst (fst (execute cmd c)))) = window_id (base cmd).
Proof. destruct cmd; simpl; auto. Qed.

Lemma in_range_insert c text p cur sel wid :
  in_range c (InsertRequest text p cur sel wid) = true -> 0 <= p <= len c.
Proof. simpl. intros H. apply andb_prop in H. lia. Qed.

Lemma in_range_delete c s e cur sel wid :
  in_range c (DeleteRequest s e cur sel wid) = true -> 0 <= s /\ s <= e /\ e <= len c.
Proof.
  simpl. intros H. apply andb_prop in H. destruct H as [H ?].
  apply andb_prop in H. lia.
Qed.

(** A command built from a request in range is sound for the buffer it was
    built against. *)
Lemma build_command_sound strict c r :
  in_range c r = true ->
  sound strict (build_command c r) c (snd (fst (execute (build_command c r) c))).
Proof.
  destruct r as [text p cur sel wid | s e cur sel wid]; intros H.
  - apply in_range_insert in H.
    destruct (cut_at c p H) as (pre & post & -> & <-).
    split; [|intros _; exact I]. simpl. exists pre, post.
    rewrite (slice_to_eq _ pre post), (slice_from_eq _ pre post) by reflexivity.
    auto.
  - apply in_range_delete in H. destruct H as (H0 & H1 & H2).
    destruct (cut_range c s e H0 H1 H2) as (pre & mid & post & -> & <- & Hmid).
    assert (Hdel : slice (pre ++ mid ++ post) (len pre) e = mid)
      by (apply (slice_eq _ pre mid post); [reflexivity | reflexivity | lia]).
    split.
    + simpl. rewrite Hdel. exists pre, post.
      rewrite (slice_to_eq _ pre (mid ++ post)) by reflexivity.
      rewrite (slice_from_eq _ (pre ++ mid) post)
        by slice_side.
      auto.
    + intros _. simpl. rewrite Hdel. lia.
Qed.

(** ** Recording a request keeps the history sound *)

Lemma push_command_chain strict c0 d r :
  in_range (content d) r = true ->
  chain (sound strict) c0 (undo_stack d) (content d) ->
  chain (sound strict) c0
    (undo_stack (fst (push_command d (build_command (content d) r))))
    (content (fst (push_command d (build_command (content d) r)))).
Proof.
  intros Hr Hc. unfold push_command.
  pose proof (build_command_sound strict _ _ Hr) as Hs.
  apply (sound_execute strict _ (content d)) in Hs.
  destruct (execute (build_command (content d) r) (content d))
    as [[cmd' c'] [cur sel]].
  simpl in *. apply chain_snoc. exists (content d). auto.
Qed.

Lemma apply_request_chain strict c0 d r :
  in_range (content d) r = true ->
  (strict = true -> forward_delete_merge d r = false) ->
  chain (sound strict) c0 (undo_stack d) (content d) ->
  chain (sound strict) c0
    (undo_stack (fst (apply_request d r))) (content (fst (apply_request d r))).
Proof.
  intros Hr Hf Hc. unfold apply_request, execute_command.
  destruct (can_group_with_last d (build_command (content d) r)) eqn:G;
    [|apply push_command_chain; assumption].
  destruct (pop (undo_stack d)) as [[rest last_cmd]|] eqn:Ep;
    [|apply push_command_chain; assumption].
  pose proof (pop_Some _ _ _ Ep) as Eus.
  pose proof Hc as Hc'. rewrite Eus in Hc'.
  apply chain_snoc in Hc'. destruct Hc' as (c' & Hrest & Hl & Hx).
  destruct r as [text p cur sel wid | s e cur sel wid];
    destruct last_cmd as [lb ltext lpos | lb lstart lend ldel];
    try (apply push_command_chain; assumption).
  - (* sequential typing *)
    cbn [build_command InsertCommand_init].
    destruct (Z.eqb_spec p (lpos + len ltext)) as [Ea|_];
      [|apply (push_command_chain strict c0 d (InsertRequest text p cur sel wid));
        assumption].
    destruct Hl as (pre & post & -> & Hcd & ->).
    unfold finish_merge. simpl. apply chain_snoc.
    exists (pre ++ post). split; [exact Hrest|].
    split; [|intros _; exact I]. simpl. exists pre, post. rewrite Hcd.
    rewrite (slice_to_eq _ (pre ++ ltext) post),
      (slice_from_eq _ (pre ++ ltext) post) by slice_side.
    rewrite <- !app_assoc. auto.
  - cbn [build_command DeleteCommand_init].
    destruct Hl as (pre & post & -> & Hcd & ->).
    apply in_range_delete in Hr. destruct Hr as (H0 & H1 & H2).
    rewrite Hcd, len_app in H2. pose proof (len_nonneg post) as Hpost.
    destruct (Z.eqb_spec e (len pre)) as [Ea|Na].
    + (* repeated backspace *)
      destruct (cut_at pre s) as (pre1 & pre2 & -> & Hs); [lia|].
      unfold finish_merge. simpl. apply chain_snoc.
      exists ((pre1 ++ pre2) ++ ldel ++ post). split; [exact Hrest|].
      rewrite Hcd.
      rewrite (slice_eq _ pre1 pre2 post) by slice_side.
      rewrite (slice_to_eq _ pre1 (pre2 ++ post)) by slice_side.
      rewrite (slice_from_eq _ (pre1 ++ pre2) post) by slice_side.
      split.
      * simpl. exists pre1, post. rewrite <- !app_assoc. auto.
      * intros Hs'. specialize (Hx Hs'). simpl in *.
        rewrite !len_app in *. lia.
    + destruct (Z.eqb_spec s (len pre)) as [Eb|_];
        [|apply (push_command_chain strict c0 d (DeleteRequest s e cur sel wid));
          [apply andb_true_intro; split; [apply andb_true_intro; split|]|];
          try apply Z.leb_le; try assumption; rewrite Hcd, len_app; lia].
      (* repeated Delete key *)
      assert (strict = false) as ->.
      { destruct strict; [|reflexivity]. specialize (Hf eq_refl).
        unfold forward_delete_merge in Hf. rewrite G, Ep in Hf. simpl in Hf.
        destruct (Z.eqb_spec e (len pre)); [contradiction|].
        destruct (Z.eqb_spec s (len pre)); [discriminate|contradiction]. }
      destruct (cut_at post (e - s)) as (mid & post2 & -> & Hm); [lia|].
      unfold finish_merge. simpl. apply chain_snoc.
      exists (pre ++ ldel ++ mid ++ post2). split; [exact Hrest|].
      rewrite Hcd.
      rewrite (slice_eq _ pre mid post2) by slice_side.
      rewrite (slice_to_eq _ pre (mid ++ post2)) by slice_side.
      rewrite (slice_from_eq _ (pre ++ mid) post2) by slice_side.
      split; [|discriminate].
      simpl. exists pre, post2. rewrite <- !app_assoc. auto.
Qed.

(** ** Undo and redo *)

Lemma execute_command_redo_stack d cmd : redo_stack (fst (execute_command d cmd)) = [].
Proof.
  unfold execute_command, finish_merge, push_command.
  destruct (execute cmd (content d)) as [[cmd' c'] [cur sel]].
  destruct (can_group_with_last d cmd); [|reflexivity].
  destruct (pop (undo_stack d)) as [[rest last_cmd]|]; [|reflexivity].
  destruct cmd, last_cmd; try reflexivity.
  - destruct (_ =? _); reflexivity.
  - destruct (_ =? _); [reflexivity|]. destruct (_ =? _); reflexivity.
Qed.

Lemma undo_empty d wid : undo_stack d = [] -> undo d wid = (d, NoneNone).
Proof. intros H. unfold undo. rewrite H. reflexivity. Qed.

Lemma redo_empty d wid : redo_stack d = [] -> redo d wid = (d, NoneNone).
Proof. intros H. unfold redo. rewrite H. reflexivity. Qed.

(** [undo] on a history whose top entry is [cmd]. *)
Lemma undo_snoc d wid rest cmd :
  undo_stack d = rest ++ [cmd] ->
  undo d wid =
    (mkDocument (fst (undo_command cmd (content d))) rest (redo_stack d ++ [cmd])
       (last_command_type d),
     Moved (cursor_before (base cmd)) (selection_before (base cmd))
       (window_id (base cmd))).
Proof.
  intros H. unfold undo. rewrite H, pop_snoc.
  destruct cmd; reflexivity.
Qed.

(** [redo] on a redo stack whose top entry is [cmd]. *)
Lemma redo_snoc d wid rest cmd :
  redo_stack d = rest ++ [cmd] ->
  redo d wid =
    (mkDocument (snd (fst (execute cmd (content d))))
       (undo_stack d ++ [fst (fst (execute cmd (content d)))]) rest
       (last_command_type d),
     Moved (fst (snd (execute cmd (content d)))) (snd (snd (execute cmd (content d))))
       (window_id (base cmd))).
Proof.
  intros H. unfold redo. rewrite H, pop_snoc.
  destruct cmd; reflexivity.
Qed.

Lemma stack_cases {A : Type} (l : list A) : l = [] \/ exists rest x, l = rest ++ [x].
Proof.
  destruct (pop l) as [[rest x]|] eqn:E.
  - right. exists rest, x. apply pop_Some, E.
  - left. apply pop_None, E.
Qed.

Lemma undo_chain strict c0 d wid :
  chain (sound strict) c0 (undo_stack d) (content d) ->
  chain (sound strict) c0 (undo_stack (fst (undo d wid))) (content (fst (undo d wid))).
Proof.
  intros Hc. destruct (stack_cases (undo_stack d)) as [E | (rest & cmd & E)].
  - rewrite undo_empty by exact E. exact Hc.
  - rewrite (undo_snoc _ _ _ _ E). simpl. rewrite E in Hc.
    apply chain_snoc in Hc. destruct Hc as (c' & Hrest & Hl & _).
    rewrite (linked_undo _ _ _ Hl). exact Hrest.
Qed.

Lemma undo_history_ok c0 d wid : history_ok c0 d -> history_ok c0 (fst (undo d wid)).
Proof.
  intros [Hu (c_end & Hr)]. split; [apply undo_chain, Hu|].
  destruct (stack_cases (undo_stack d)) as [E | (rest & cmd & E)].
  - rewrite undo_empty by exact E. exists c_end. exact Hr.
  - rewrite (undo_snoc _ _ _ _ E). simpl. rewrite E in Hu.
    apply chain_snoc in Hu. destruct Hu as (c' & _ & Hs).
    rewrite (linked_undo _ _ _ (proj1 Hs)).
    exists c_end. rewrite rev_app_distr. simpl. exists (content d). auto.
Qed.

Lemma redo_history_ok c0 d wid : history_ok c0 d -> history_ok c0 (fst (redo d wid)).
Proof.
  intros [Hu (c_end & Hr)].
  destruct (stack_cases (redo_stack d)) as [E | (rest & cmd & E)].
  - rewrite redo_empty by exact E. split; [exact Hu | exists c_end; exact Hr].
  - rewrite (redo_snoc _ _ _ _ E). rewrite E, rev_app_distr in Hr. simpl in Hr.
    destruct Hr as (c1 & Hs & Hr).
    pose proof (linked_execute _ _ _ (proj1 Hs) (proj2 Hs eq_refl)) as Hx.
    split; simpl; rewrite Hx.
    + apply chain_snoc. exists (content d). split; [exact Hu|].
      apply sound_execute. exact Hs.
    + exists c_end. exact Hr.
Qed.

Lemma apply_request_history_ok c0 d r :
  plain_request d r = true -> history_ok c0 d -> history_ok c0 (fst (apply_request d r)).
Proof.
  intros Hp [Hu _]. unfold plain_request in Hp. apply andb_prop in Hp.
  destruct Hp as [Hr Hf]. apply negb_true_iff in Hf. split.
  - apply apply_request_chain; auto.
  - unfold apply_request. rewrite execute_command_redo_stack. simpl. eauto.
Qed.

Lemma reachable_history_ok file d :
  reachable plain_request file d -> history_ok (content (Document_init file)) d.
Proof.
  induction 1 as [| d r _ IH Hok | d wid _ IH | d wid _ IH].
  - split; simpl; eauto.
  - apply apply_request_history_ok; assumption.
  - apply undo_history_ok, IH.
  - apply redo_history_ok, IH.
Qed.

Lemma chain_replay c0 stack c : chain (sound true) c0 stack c -> replay c0 stack = c.
Proof.
  revert c0. induction stack as [|cmd stack IH]; simpl; intros c0.
  - auto.
  - intros (c1 & Hs & Hc). unfold replay in *. simpl.
    rewrite (linked_execute _ _ _ (proj1 Hs) (proj2 Hs eq_refl)). apply IH, Hc.
Qed.

(** ** The shape of the undo stack after a new edit *)

(** [execute_command] either pushes the command or rewrites the top entry in
    place; the saved cursor, selection and view of an entry never change. *)
Lemma execute_command_stack d cmd :
  (exists cmd',
      undo_stack (fst (execute_command d cmd)) = undo_stack d ++ [cmd'] /\
      same_origin cmd' cmd) \/
  (exists rest last_cmd merged,
      undo_stack d = rest ++ [last_cmd] /\
      undo_stack (fst (execute_command d cmd)) = rest ++ [merged] /\
      same_origin merged last_cmd).
Proof.
  assert (Hpush : exists cmd',
             undo_stack (fst (push_command d cmd)) = undo_stack d ++ [cmd'] /\
             same_origin cmd' cmd).
  { unfold push_command. pose proof (base_execute cmd (content d)) as Hb.
    destruct (execute cmd (content d)) as [[cmd' c'] [cur sel]].
    exists cmd'. split; [reflexivity | exact Hb]. }
  unfold execute_command.
  destruct (can_group_with_last d cmd); [|left; exact Hpush].
  destruct (pop (undo_stack d)) as [[rest last_cmd]|] eqn:Ep; [|left; exact Hpush].
  apply pop_Some in Ep.
  destruct cmd as [cb ctext cpos | cb cstart cend cdel];
    destruct last_cmd as [lb ltext lpos | lb lstart lend ldel];
    try (left; exact Hpush).
  - destruct (cpos =? lpos + len ltext); [|left; exact Hpush].
    right. exists rest, (InsertCommand lb ltext lpos). eexists.
    split; [exact Ep|]. split; [reflexivity|]. repeat split.
  - destruct (cend =? lstart).
    + right. exists rest, (DeleteCommand lb lstart lend ldel). eexists.
      split; [exact Ep|]. split; [reflexivity|]. repeat split.
    + destruct (cstart =? lstart); [|left; exact Hpush].
      right. exists rest, (DeleteCommand lb lstart lend ldel). eexists.
      split; [exact Ep|]. split; [reflexivity|]. repeat split.
Qed.

Lemma execute_command_length d cmd :
  (length (undo_stack (fst (execute_command d cmd))) <= S (length (undo_stack d)))%nat.
Proof.
  destruct (execute_command_stack d cmd)
    as [(cmd' & -> & _) | (rest & l & m & E & -> & _)].
  - rewrite length_app. simpl. lia.
  - rewrite E, !length_app. simpl. lia.
Qed.

Lemma apply_all_length d rs :
  (length (undo_stack (apply_all d rs)) <= length (undo_stack d) + length rs)%nat.
Proof.
  revert d. induction rs as [|r rs IH]; intros d; simpl; [lia|].
  specialize (IH (fst (apply_request d r))).
  pose proof (execute_command_length d (build_command (content d) r)).
  unfold apply_request in *. unfold apply_all in *. lia.
Qed.

Lemma build_command_origin c r :
  cursor_before (base (build_command c r)) = request_cursor r /\
  selection_before (base (build_command c r)) = request_selection r /\
  window_id (base (build_command c r)) = request_window r.
Proof. destruct r; simpl; auto. Qed.

Lemma bottom_of_apply_request r0 d r :
  bottom_of r0 (undo_stack d) -> bottom_of r0 (undo_stack (fst (apply_request d r))).
Proof.
  intros Hb. unfold apply_request.
  destruct (execute_command_stack d (build_command (content d) r))
    as [(cmd' & -> & _) | (rest & l & m & E & -> & Ho)].
  - destruct (undo_stack d); [contradiction | exact Hb].
  - rewrite E in Hb. destruct rest as [|x rest]; simpl in *; [|exact Hb].
    destruct Ho as (-> & -> & ->). exact Hb.
Qed.

Lemma bottom_of_first_request d r :
  undo_stack d = [] -> bottom_of r (undo_stack (fst (apply_request d r))).
Proof.
  intros E. unfold apply_request.
  destruct (execute_command_stack d (build_command (content d) r))
    as [(cmd' & -> & Ho) | (rest & l & m & E' & _)].
  - rewrite E. simpl. destruct Ho as (-> & -> & ->). apply build_command_origin.
  - rewrite E in E'. destruct rest; discriminate.
Qed.

Lemma bottom_of_apply_all r0 d rs :
  bottom_of r0 (undo_stack d) -> bottom_of r0 (undo_stack (apply_all d rs)).
Proof.
  revert d. induction rs as [|r rs IH]; intros d Hb; simpl; [exact Hb|].
  apply IH, bottom_of_apply_request, Hb.
Qed.

Lemma apply_all_chain c0 d rs :
  valid_requests d rs = true ->
  chain (sound false) c0 (undo_stack d) (content d) ->
  chain (sound false) c0 (undo_stack (apply_all d rs)) (content (apply_all d rs)).
Proof.
  revert d. induction rs as [|r rs IH]; intros d Hv Hc; simpl; [exact Hc|].
  simpl in Hv. apply andb_prop in Hv. destruct Hv as [Hr Hv].
  apply IH; [exact Hv|]. apply apply_request_chain; [exact Hr | discriminate | exact Hc].
Qed.

(** ** Undoing a whole history *)

Lemma undo_times_content c0 n d wid :
  chain (sound false) c0 (undo_stack d) (content d) ->
  (length (undo_stack d) <= n)%nat ->
  content (fst (undo_times n d wid)) = c0.
Proof.
  revert d. induction n as [|n IH]; intros d Hc Hn; simpl.
  - destruct (undo_stack d); [symmetry; exact Hc | simpl in Hn; lia].
  - pose proof (undo_chain false c0 d wid Hc) as Hc'.
    assert (Hn' : (length (undo_stack (fst (undo d wid))) <= n)%nat).
    { destruct (stack_cases (undo_stack d)) as [E | (rest & cmd & E)].
      - rewrite undo_empty by exact E. simpl. rewrite E. simpl. lia.
      - rewrite (undo_snoc _ _ _ _ E). simpl. rewrite E, length_app in Hn.
        simpl in Hn. lia. }
    specialize (IH _ Hc' Hn').
    destruct (undo d wid) as [d1 r]. simpl in *.
    destruct (undo_times n d1 wid) as [d2 rs]. exact IH.
Qed.

Lemma undo_times_empty n d wid :
  undo_stack d = [] -> last_moved (snd (undo_times n d wid)) = None.
Proof.
  intros E. induction n as [|n IH]; simpl; [reflexivity|].
  rewrite undo_empty by exact E.
  destruct (undo_times n d wid) as [d2 rs]. simpl in *. rewrite IH. reflexivity.
Qed.

Lemma undo_times_bottom r0 n d wid :
  bottom_of r0 (undo_stack d) ->
  (length (undo_stack d) <= n)%nat ->
  last_moved (snd (undo_times n d wid)) =
    Some (Moved (request_cursor r0) (request_selection r0) (request_window r0)).
Proof.
  revert d. induction n as [|n IH]; intros d Hb Hn.
  - destruct (undo_stack d); [contradiction | simpl in Hn; lia].
  - destruct (stack_cases (undo_stack d)) as [E | (rest & cmd & E)].
    { rewrite E in Hb. contradiction. }
    simpl. rewrite (undo_snoc _ _ _ _ E).
    rewrite E, length_app in Hn. simpl in Hn.
    set (d1 := mkDocument _ _ _ _).
    destruct rest as [|x rest].
    + pose proof (undo_times_empty n d1 wid eq_refl) as Hnone.
      destruct (undo_times n d1 wid) as [d2 rs]. simpl in *. rewrite Hnone.
      rewrite E in Hb. simpl in Hb. destruct Hb as (-> & -> & ->). reflexivity.
    + assert (Hb1 : bottom_of r0 (undo_stack d1)) by (rewrite E in Hb; exact Hb).
      assert (Hn1 : (length (undo_stack d1) <= n)%nat) by (simpl in *; lia).
      specialize (IH d1 Hb1 Hn1).
      destruct (undo_times n d1 wid) as [d2 rs]. simpl in *. rewrite IH. reflexivity.
Qed.

(** ** Rows and columns *)

Lemma split_nonempty sep s : split sep s <> [].
Proof.
  destruct s as [|ch s]; simpl; [discriminate|].
  destruct (Ascii.eqb ch sep); [discriminate|].
  destruct (split sep s); discriminate.
Qed.

Lemma span_cons line lines : span (line :: lines) = len line + 1 + span lines.
Proof. reflexivity. Qed.

(** The lines of a buffer and the newlines between them make up the buffer:
    one newline less than lines. *)
Lemma span_split sep s : span (split sep s) = len s + 1.
Proof.
  induction s as [|ch s IH]; [reflexivity|].
  rewrite len_cons. simpl split. destruct (Ascii.eqb ch sep).
  - rewrite span_cons, IH. change (len []) with 0. lia.
  - pose proof (split_nonempty sep s) as Hne.
    destruct (split sep s) as [|line lines]; [contradiction|].
    rewrite span_cons in *. rewrite len_cons. lia.
Qed.

Lemma span_firstn_S (lines : list str) k :
  (k < length lines)%nat ->
  span (firstn (S k) lines) = span (firstn k lines) + len (nth k lines []) + 1.
Proof.
  revert k. induction lines as [|line lines IH]; intros k Hk; simpl in Hk; [lia|].
  destruct k as [|k].
  - change (firstn 1 (line :: lines)) with [line]. rewrite span_cons.
    change (span []) with 0. change (span (firstn 0 (line :: lines))) with 0.
    simpl nth. lia.
  - change (firstn (S (S k)) (line :: lines)) with (line :: firstn (S k) lines).
    change (firstn (S k) (line :: lines)) with (line :: firstn k lines).
    change (nth (S k) (line :: lines) []) with (nth k lines []).
    rewrite !span_cons, IH by lia. lia.
Qed.

(** The first loop of [get_index_from_position] adds up the rows above. *)
Lemma rows_above (lines : list str) k :
  (k <= length lines)%nat ->
  fold_left
    (fun pos i =>
       if Z.of_nat i <? len lines then pos + len (nth i lines []) + 1 else pos)
    (seq 0 k) 0 = span (firstn k lines).
Proof.
  induction k as [|k IH]; intros Hk; [reflexivity|].
  rewrite seq_S, fold_left_app, IH by lia. cbn [fold_left Nat.add].
  destruct (Z.ltb_spec (Z.of_nat k) (len lines)) as [_|H]; [|unfold len in H; lia].
  rewrite span_firstn_S by lia. reflexivity.
Qed.

(** The loop of [get_position_from_index] stops in the row that holds [pos]
    whenever [pos] does not lie beyond the lines. *)
Lemma position_loop_finds (lines : list str) row current_pos pos :
  lines <> [] \/ current_pos <= pos ->
  pos <= current_pos + span lines - 1 ->
  exists k,
    (k < length lines)%nat /\
    position_loop lines row current_pos pos =
      Some (row + Z.of_nat k + 1, pos - current_pos - span (firstn k lines)) /\
    pos - current_pos - span (firstn k lines) <= len (nth k lines []).
Proof.
  revert row current_pos.
  induction lines as [|line lines IH]; intros row cur Hne Hpos.
  - simpl in Hpos. destruct Hne as [Hne|Hne]; [contradiction | lia].
  - simpl position_loop. rewrite span_cons in Hpos.
    destruct (Z.leb_spec pos (cur + len line)) as [Hle|Hgt].
    + exists 0%nat. change (span (firstn 0 (line :: lines))) with 0.
      simpl length. simpl nth. split; [lia|]. split; [|lia].
      f_equal. f_equal; lia.
    + destruct (IH (row + 1) (cur + len line + 1)) as (k & Hk & Hloop & Hcol);
        [right; lia | lia |].
      exists (S k). split; [simpl; lia|].
      change (firstn (S k) (line :: lines)) with (line :: firstn k lines).
      change (nth (S k) (line :: lines) []) with (nth k lines []).
      rewrite span_cons, Hloop. split; [|lia].
      f_equal. f_equal; lia.
Qed.

Lemma span_nonneg (lines : list str) : 0 <= span lines.
Proof.
  induction lines as [|line lines IH]; [reflexivity|].
  rewrite span_cons. pose proof (len_nonneg line). lia.
Qed.

(** Beyond the lines the loop of [get_position_from_index] runs to its end. *)
Lemma position_loop_beyond (lines : list str) row current_pos pos :
  current_pos + span lines - 1 < pos -> position_loop lines row current_pos pos = None.
Proof.
  revert row current_pos.
  induction lines as [|line lines IH]; intros row cur H; [reflexivity|].
  rewrite span_cons in H. pose proof (span_nonneg lines). simpl.
  destruct (Z.leb_spec pos (cur + len line)) as [Hle|_]; [lia|].
  apply IH. lia.
Qed.

(** ** What [execute_command] does, branch by branch *)

(** Whatever the branch, the buffer and the returned pair are those of
    [command.execute()]. *)
Lemma execute_command_result d cmd :
  content (fst (execute_command d cmd)) = snd (fst (execute cmd (content d))) /\
  snd (execute_command d cmd) = snd (execute cmd (content d)).
Proof.
  unfold execute_command, finish_merge, push_command.
  destruct (execute cmd (content d)) as [[cmd' c'] [cur sel]] eqn:E.
  destruct (can_group_with_last d cmd); [|auto].
  destruct (pop (undo_stack d)) as [[rest last_cmd]|]; [|auto].
  destruct cmd, last_cmd; auto.
  - destruct (_ =? _); auto.
  - destruct (_ =? _); [auto|]. destruct (_ =? _); auto.
Qed.

Lemma execute_command_push d cmd :
  can_group_with_last d cmd = false ->
  execute_command d cmd = push_command d cmd.
Proof. intros H. unfold execute_command. rewrite H. reflexivity. Qed.

Lemma can_group_with_last_snoc d rest last_cmd cmd :
  undo_stack d = rest ++ [last_cmd] ->
  type_of cmd = type_of last_cmd ->
  window_id (base cmd) = window_id (base last_cmd) ->
  can_group_with_last d cmd = true.
Proof.
  intros E Ht Hw. unfold can_group_with_last.
  rewrite E, pop_snoc, Ht, Hw, Z.eqb_refl.
  destruct (type_of last_cmd); reflexivity.
Qed.

(** Sequential typing: the branch of line 78. *)
Lemma execute_command_insert_merge d rest lb ltext lpos cb ctext cpos :
  undo_stack d = rest ++ [InsertCommand lb ltext lpos] ->
  window_id cb = window_id lb ->
  cpos = lpos + len ltext ->
  execute_command d (InsertCommand cb ctext cpos) =
    (mkDocument (slice_to (content d) cpos ++ ctext ++ slice_from (content d) cpos)
       (rest ++ [InsertCommand (set_after lb (cpos + len ctext) None) (ltext ++ ctext) lpos])
       [] (last_command_type d),
     (cpos + len ctext, None)).
Proof.
  intros E Hw Hp. unfold execute_command.
  rewrite (can_group_with_last_snoc d rest (InsertCommand lb ltext lpos))
    by (assumption || reflexivity).
  rewrite E, pop_snoc. rewrite <- Hp, Z.eqb_refl. reflexivity.
Qed.

(** Repeated backspace: the branch of line 86. *)
Lemma execute_command_backspace_merge d rest lb lstart lend ldel cb cstart cend cdel :
  undo_stack d = rest ++ [DeleteCommand lb lstart lend ldel] ->
  window_id cb = window_id lb ->
  cend = lstart ->
  execute_command d (DeleteCommand cb cstart cend cdel) =
    (mkDocument (slice_to (content d) cstart ++ slice_from (content d) cend)
       (rest ++ [DeleteCommand (set_after lb cstart None) cstart lend (cdel ++ ldel)])
       [] (last_command_type d),
     (cstart, None)).
Proof.
  intros E Hw Hp. unfold execute_command.
  rewrite (can_group_with_last_snoc d rest (DeleteCommand lb lstart lend ldel))
    by (assumption || reflexivity).
  rewrite E, pop_snoc. rewrite <- Hp, Z.eqb_refl. reflexivity.
Qed.

(** * The claims *)

(** ** C1: undo reverses execute *)

(** C1, as stated, fails twice.  (1) A command whose offset lies outside the
    buffer is not reversed by its [undo]: on the empty buffer, inserting
    ["x"] at offset 5 gives ["x"], and the undo leaves ["x"].  (2) With an
    entry already on the undo stack, a request can be merged into it, and as
    many undos as requests go too far: after ["a"] was typed, typing ["b"]
    and undoing once gives the empty buffer, not ["a"]. *)
Lemma undo_after_execute_counterexample :
  (let c : str := [] in
   let cmd := build_command c (InsertRequest (py "x") 5 0 None 0) in
   fst (undo_command (fst (fst (execute cmd c))) (snd (fst (execute cmd c)))) = py "x" /\
   fst (undo_command (fst (fst (execute cmd c))) (snd (fst (execute cmd c)))) <> c) /\
  (let d := fst (apply_request (Document_init None) (InsertRequest (py "a") 0 0 None 0)) in
   let rs := [InsertRequest (py "b") 1 1 None 0] in
   valid_requests d rs = true /\
   content d = py "a" /\
   content (fst (undo_times (length rs) (apply_all d rs) 0)) = [] /\
   content (fst (undo_times (length rs) (apply_all d rs) 0)) <> content d).
Proof.
  split; [split; [reflexivity | discriminate]|].
  repeat split; discriminate.
Qed.

(** C1 (amended): for every insert or delete command whose offsets lie within
    the buffer it is built against, [execute] followed by [undo] gives the
    buffer back and [undo] returns the cursor and selection captured at
    construction; and from a document whose undo stack is empty, any sequence
    of requests, each within the buffer it meets, followed by as many undos,
    gives the original buffer back, the last undo that found an entry
    returning the cursor, selection and view of the first request. *)
Theorem undo_after_execute :
  (forall c r,
      in_range c r = true ->
      undo_command (fst (fst (execute (build_command c r) c)))
                   (snd (fst (execute (build_command c r) c)))
      = (c, (request_cursor r, request_selection r))) /\
  (forall d rs wid,
      undo_stack d = [] ->
      valid_requests d rs = true ->
      content (fst (undo_times (length rs) (apply_all d rs) wid)) = content d /\
      forall r rs',
        rs = r :: rs' ->
        last_moved (snd (undo_times (length rs) (apply_all d rs) wid)) =
          Some (Moved (request_cursor r) (request_selection r) (request_window r))).
Proof.
  split.
  - intros c r Hr.
    pose proof (build_command_sound false c r Hr) as Hs.
    apply (sound_execute false _ c) in Hs. destruct Hs as [Hl _].
    pose proof (linked_undo _ _ _ Hl) as Hu.
    pose proof (base_execute (build_command c r) c) as (Hc & Hsel & _).
    pose proof (build_command_origin c r) as (Hc' & Hsel' & _).
    rewrite undo_command_returns, Hu, Hc, Hsel, Hc', Hsel'. reflexivity.
  - intros d rs wid He Hv.
    assert (Hlen : (length (undo_stack (apply_all d rs)) <= length rs)%nat).
    { pose proof (apply_all_length d rs) as H. rewrite He in H. exact H. }
    split.
    + apply undo_times_content; [|exact Hlen].
      apply apply_all_chain; [exact Hv|]. rewrite He. reflexivity.
    + intros r rs' ->. apply undo_times_bottom; [|exact Hlen].
      simpl. apply bottom_of_apply_all, bottom_of_first_request, He.
Qed.

Lemma undo_after_execute_witness :
  undo_command
    (fst (fst (execute (build_command (py "hello") (DeleteRequest 1 4 4 (Some (Some 1, Some 4)) 0))
                 (py "hello"))))
    (py "ho")
  = (py "hello", (4, Some (Some 1, Some 4))) /\
  content
    (fst (undo_times 3
            (apply_all (Document_init (Some (py "hello")))
               [DeleteRequest 4 5 5 None 0; DeleteRequest 3 4 4 None 0;
                InsertRequest (py "p") 3 3 None 0]) 0))
  = py "hello".
Proof.
  split.
  - apply (proj1 undo_after_execute (py "hello")
             (DeleteRequest 1 4 4 (Some (Some 1, Some 4)) 0)).
    reflexivity.
  - apply (proj2 undo_after_execute (Document_init (Some (py "hello")))
             [DeleteRequest 4 5 5 None 0; DeleteRequest 3 4 4 None 0;
              InsertRequest (py "p") 3 3 None 0] 0); reflexivity.
Defined.

(** ** C2: sequential typing is one undo step *)

(** C2: three insertions ["a"], ["b"], ["c"] from one view, the first at an
    offset [p] where it starts a new undo entry (as on an empty undo stack),
    each next one right after the text typed so far, add exactly one entry
    to the undo stack, with text ["abc"] at [p], and one undo takes that
    entry off again; with [p] an offset of the buffer, the three characters
    stand at [p] and that one undo removes them all. *)
Theorem typing_groups_into_one_entry d p cur1 sel1 cur2 sel2 cur3 sel3 wid wid' :
  can_group_with_last d (InsertCommand_init (py "a") p cur1 sel1 wid) = false ->
  let d3 :=
    apply_all d [InsertRequest (py "a") p cur1 sel1 wid;
                 InsertRequest (py "b") (p + 1) cur2 sel2 wid;
                 InsertRequest (py "c") (p + 2) cur3 sel3 wid] in
  undo_stack d3 =
    undo_stack d ++ [InsertCommand (mkBase cur1 sel1 wid (Some (p + 3)) None) (py "abc") p] /\
  undo_stack (fst (undo d3 wid')) = undo_stack d /\
  (0 <= p <= len (content d) ->
   content d3 = slice_to (content d) p ++ py "abc" ++ slice_from (content d) p /\
   content (fst (undo d3 wid')) = content d).
Proof.
  intros Hg d3.
  set (c1 := slice_to (content d) p ++ py "a" ++ slice_from (content d) p).
  set (c2 := slice_to c1 (p + 1) ++ py "b" ++ slice_from c1 (p + 1)).
  set (c3 := slice_to c2 (p + 2) ++ py "c" ++ slice_from c2 (p + 2)).
  assert (Ed3 : d3 =
                mkDocument c3
                  (undo_stack d ++
                   [InsertCommand (mkBase cur1 sel1 wid (Some (p + 3)) None) (py "abc") p])
                  [] (Some InsertCommandT)).
  { subst d3. unfold apply_all, apply_request. cbn [fold_left build_command].
    rewrite (execute_command_push d) by exact Hg.
    unfold InsertCommand_init, Command_init, push_command.
    cbn [execute fst snd type_of]. fold c1.
    match goal with
    | |- context [execute_command ?D (InsertCommand ?cb (py "b") _)] =>
        rewrite (execute_command_insert_merge D (undo_stack d) _ (py "a") p cb)
          by reflexivity
    end.
    cbn [fst content last_command_type]. fold c2.
    match goal with
    | |- context [execute_command ?D (InsertCommand ?cb (py "c") _)] =>
        rewrite (execute_command_insert_merge D (undo_stack d) _ (py "ab") p cb)
          by reflexivity
    end.
    cbn [fst content last_command_type]. fold c3.
    unfold set_after. cbn.
    replace (p + 2 + 1) with (p + 3) by lia. reflexivity. }
  assert (Es : undo_stack d3 =
               undo_stack d ++
               [InsertCommand (mkBase cur1 sel1 wid (Some (p + 3)) None) (py "abc") p])
    by (rewrite Ed3; reflexivity).
  split; [exact Es|]. split.
  - rewrite (undo_snoc _ _ _ _ Es). reflexivity.
  - intros Hp.
    destruct (cut_at (content d) p Hp) as (pre & post & Hc & Hpre).
    assert (E1 : c1 = pre ++ py "a" ++ post).
    { subst c1. rewrite Hc.
      rewrite (slice_to_eq _ pre post), (slice_from_eq _ pre post) by slice_side.
      reflexivity. }
    assert (E2 : c2 = pre ++ py "ab" ++ post).
    { subst c2. rewrite E1.
      rewrite (slice_to_eq _ (pre ++ py "a") post),
        (slice_from_eq _ (pre ++ py "a") post) by slice_side.
      rewrite <- !app_assoc. reflexivity. }
    assert (E3 : c3 = pre ++ py "abc" ++ post).
    { subst c3. rewrite E2.
      rewrite (slice_to_eq _ (pre ++ py "ab") post),
        (slice_from_eq _ (pre ++ py "ab") post) by slice_side.
      rewrite <- !app_assoc. reflexivity. }
    assert (Ec : content d3 = c3) by (rewrite Ed3; reflexivity).
    split.
    + rewrite Ec, E3, Hc.
      rewrite (slice_to_eq _ pre post), (slice_from_eq _ pre post) by slice_side.
      reflexivity.
    + rewrite (undo_snoc _ _ _ _ Es). cbn [fst content undo_command].
      rewrite Ec, E3, Hc.
      rewrite (slice_to_eq _ pre (py "abc" ++ post)) by slice_side.
      rewrite (slice_from_eq _ (pre ++ py "abc") post) by slice_side.
      reflexivity.
Qed.

Lemma typing_groups_into_one_entry_witness :
  let d3 :=
    apply_all (Document_init (Some (py "xy")))
      [InsertRequest (py "a") 1 1 None 0; InsertRequest (py "b") 2 2 None 0;
       InsertRequest (py "c") 3 3 None 0] in
  undo_stack d3 = [InsertCommand (mkBase 1 None 0 (Some 4) None) (py "abc") 1] /\
  undo_stack (fst (undo d3 0)) = [] /\
  content d3 = py "xabcy" /\
  content (fst (undo d3 0)) = py "xy".
Proof.
  pose proof (typing_groups_into_one_entry (Document_init (Some (py "xy"))) 1
                1 None 2 None 3 None 0 0 eq_refl) as (H1 & H2 & H3).
  split; [exact H1|]. split; [exact H2|].
  apply H3. unfold len. simpl. lia.
Defined.

(** ** C3: a new edit empties the redo stack *)

(** C3: after [execute_command], on whichever branch, the redo stack is
    empty and [redo] returns [(None, None)] without touching the document;
    so it is when the edit follows an undo. *)
Theorem new_edit_clears_redo d cmd wid wid' :
  redo_stack (fst (execute_command d cmd)) = [] /\
  redo (fst (execute_command d cmd)) wid =
    (fst (execute_command d cmd), NoneNone) /\
  redo (fst (execute_command (fst (undo d wid')) cmd)) wid =
    (fst (execute_command (fst (undo d wid')) cmd), NoneNone).
Proof.
  split; [apply execute_command_redo_stack|].
  split; apply redo_empty, execute_command_redo_stack.
Qed.

(** ** C4: the undo stack replays to the content *)

(** C4, as stated, fails on a document loaded from a non-empty file: its undo
    stack is empty, so the replay on the empty buffer gives the empty buffer,
    while the content is the text of the file. *)
Lemma replay_from_empty_counterexample :
  reachable any_request (Some (py "x")) (Document_init (Some (py "x"))) /\
  content (Document_init (Some (py "x"))) = py "x" /\
  replay [] (undo_stack (Document_init (Some (py "x")))) = [] /\
  replay [] (undo_stack (Document_init (Some (py "x")))) <>
    content (Document_init (Some (py "x"))).
Proof.
  split; [apply reach_init|]. repeat split. discriminate.
Qed.

(** C4 (amended): at every state a loaded document reaches through requests
    that lie within the buffer they meet and are not merged by the Delete-key
    rule, and through undos and redos, the forward effects of the undo stack,
    oldest first, applied to the text the document was loaded with, give the
    content. *)
Theorem replay_from_loaded_text file d :
  reachable plain_request file d ->
  replay (content (Document_init file)) (undo_stack d) = content d.
Proof.
  intros H. apply chain_replay. apply (reachable_history_ok file d H).
Qed.

Lemma replay_from_loaded_text_witness :
  let d0 := Document_init (Some (py "hello")) in
  let d1 := fst (apply_request d0 (DeleteRequest 3 4 4 None 0)) in
  let d2 := fst (apply_request d1 (DeleteRequest 2 3 3 None 0)) in
  let d3 := fst (undo d2 0) in
  let d4 := fst (redo d3 0) in
  replay (py "hello") (undo_stack d4) = content d4.
Proof.
  apply (replay_from_loaded_text (Some (py "hello"))).
  apply reach_redo, reach_undo.
  apply reach_apply; [|reflexivity].
  apply reach_apply; [|reflexivity].
  apply reach_init.
Defined.

(** The rule left out of C4: two presses of the Delete key at offset 1 of
    ["hello"] are merged into an entry whose range is the last range only;
    the buffer is ["hlo"], the replay of the undo stack gives ["hllo"]. *)
Example delete_key_merge_replay :
  let d0 := Document_init (Some (py "hello")) in
  let d2 := apply_all d0 [DeleteRequest 1 2 1 None 0; DeleteRequest 1 2 1 None 0] in
  undo_stack d2 = [DeleteCommand (mkBase 1 None 0 (Some 1) None) 1 2 (py "el")] /\
  content d2 = py "hlo" /\
  replay (py "hello") (undo_stack d2) = py "hllo".
Proof. repeat split. Qed.

(** ** C5: a run of backspaces is one entry *)

(** C5: a delete request of the view of the top entry, a delete command
    whose range starts where the request's ends, is merged into that entry:
    the stack keeps its length, the entry now starts where the request does,
    and its [deleted_text] is the request's deleted text followed by the
    entry's.  When the entry led from a buffer [c0] to the content, that
    text is the run [c0[start:]] up to the end of the earlier deletions, in
    buffer order. *)
Theorem backspace_run_merges d rest lb lstart lend ldel s e cur sel wid :
  undo_stack d = rest ++ [DeleteCommand lb lstart lend ldel] ->
  wid = window_id lb ->
  e = lstart ->
  undo_stack (fst (apply_request d (DeleteRequest s e cur sel wid))) =
    rest ++ [DeleteCommand (set_after lb s None) s lend (slice (content d) s e ++ ldel)] /\
  length (undo_stack (fst (apply_request d (DeleteRequest s e cur sel wid)))) =
    length (undo_stack d) /\
  forall c0,
    linked (DeleteCommand lb lstart lend ldel) c0 (content d) ->
    0 <= s <= e ->
    slice (content d) s e ++ ldel = slice c0 s (lstart + len ldel).
Proof.
  intros Es Hw He.
  assert (E : undo_stack (fst (apply_request d (DeleteRequest s e cur sel wid))) =
              rest ++ [DeleteCommand (set_after lb s None) s lend
                         (slice (content d) s e ++ ldel)]).
  { unfold apply_request. cbn [build_command].
    unfold DeleteCommand_init, Command_init.
    rewrite (execute_command_backspace_merge d rest lb lstart lend ldel)
      by (assumption || reflexivity).
    reflexivity. }
  split; [exact E|]. split.
  - rewrite E, Es, !length_app. reflexivity.
  - intros c0 (pre & post & -> & Hc & Hl) Hse. rewrite Hc.
    destruct (cut_at pre s) as (pre1 & pre2 & -> & Hs); [lia|].
    rewrite (slice_eq _ pre1 pre2 post) by slice_side.
    rewrite (slice_eq _ pre1 (pre2 ++ ldel) post) by slice_side.
    reflexivity.
Qed.

Lemma backspace_run_merges_witness :
  let d0 := Document_init (Some (py "hello")) in
  let d1 := fst (apply_request d0 (DeleteRequest 3 4 4 None 0)) in
  let d2 := fst (apply_request d1 (DeleteRequest 2 3 3 None 0)) in
  undo_stack d1 = [DeleteCommand (mkBase 4 None 0 (Some 3) None) 3 4 (py "l")] /\
  undo_stack d2 = [DeleteCommand (mkBase 4 None 0 (Some 2) None) 2 4 (py "ll")] /\
  py "ll" = slice (py "hello") 2 4.
Proof.
  split; [reflexivity|].
  pose proof (backspace_run_merges
                (fst (apply_request (Document_init (Some (py "hello")))
                        (DeleteRequest 3 4 4 None 0)))
                [] (mkBase 4 None 0 (Some 3) None) 3 4 (py "l") 2 3 3 None 0
                eq_refl eq_refl eq_refl) as (H1 & _ & H2).
  split; [exact H1|].
  apply (H2 (py "hello")).
  - exists (py "hel"), (py "o"). repeat split.
  - lia.
Defined.

(** ** C6: undo and redo at the end of the history *)

(** C6: with an empty undo stack [undo], and with an empty redo stack
    [redo], return [(None, None)] and the document as it was: content and
    both stacks. *)
Theorem empty_history_is_a_boundary d wid :
  (undo_stack d = [] -> undo d wid = (d, NoneNone)) /\
  (redo_stack d = [] -> redo d wid = (d, NoneNone)).
Proof. split; [apply undo_empty | apply redo_empty]. Qed.

Lemma empty_history_is_a_boundary_witness :
  undo (Document_init (Some (py "ab"))) 0 = (Document_init (Some (py "ab")), NoneNone) /\
  redo (Document_init (Some (py "ab"))) 0 = (Document_init (Some (py "ab")), NoneNone).
Proof.
  split.
  - apply (proj1 (empty_history_is_a_boundary (Document_init (Some (py "ab"))) 0)).
    reflexivity.
  - apply (proj2 (empty_history_is_a_boundary (Document_init (Some (py "ab"))) 0)).
    reflexivity.
Defined.

(** ** C7: offset to row and column and back *)

(** C7: for every offset [o] with [0 <= o <= len(content)], the row and
    column [get_position_from_index] gives for [o] are taken back to [o] by
    [get_index_from_position]. *)
Theorem position_of_index_roundtrip content o :
  0 <= o <= len content ->
  get_index_from_position content
    (fst (get_position_from_index content o))
    (snd (get_position_from_index content o)) = Some o.
Proof.
  intros Ho. unfold get_position_from_index, get_index_from_position.
  pose proof (span_split newline content) as Hspan.
  pose proof (split_nonempty newline content) as Hne.
  set (lines := split newline content) in *.
  destruct (position_loop_finds lines 0 0 o) as (k & Hk & -> & Hcol);
    [left; exact Hne | lia |].
  cbn [fst snd].
  replace (0 + Z.of_nat k + 1 - 1) with (Z.of_nat k) by lia.
  rewrite Nat2Z.id, rows_above by lia.
  destruct (Z.ltb_spec (Z.of_nat k) (len lines)) as [_|H]; [|unfold len in H; lia].
  unfold py_index.
  destruct (Z.leb_spec 0 (Z.of_nat k)) as [_|H]; [|lia].
  rewrite Nat2Z.id, (nth_error_nth' lines [] Hk).
  f_equal. lia.
Qed.

Lemma position_of_index_roundtrip_witness :
  get_position_from_index (py "ab" ++ newline :: py "cd") 4 = (2, 1) /\
  get_index_from_position (py "ab" ++ newline :: py "cd") 2 1 = Some 4.
Proof.
  split; [reflexivity|].
  apply (position_of_index_roundtrip (py "ab" ++ newline :: py "cd") 4).
  unfold len. simpl. lia.
Defined.

(** ** C8: offsets outside the buffer *)

(** At the end of the buffer the loop stops in the last row, at its end. *)
Lemma position_loop_end (lines : list str) row current_pos pos :
  lines <> [] ->
  pos = current_pos + span lines - 1 ->
  position_loop lines row current_pos pos = Some (row + len lines, len (last lines [])).
Proof.
  revert row current_pos.
  induction lines as [|line lines IH]; intros row cur Hne Hpos; [contradiction|].
  rewrite span_cons in Hpos. rewrite len_cons. cbn [position_loop].
  destruct lines as [|line' lines].
  - change (span []) with 0 in Hpos. change (len (@nil str)) with 0.
    destruct (Z.leb_spec pos (cur + len line)) as [_|H]; [|lia].
    cbn [last]. f_equal. f_equal; lia.
  - pose proof (span_nonneg lines). pose proof (len_nonneg line').
    rewrite span_cons in Hpos.
    destruct (Z.leb_spec pos (cur + len line)) as [Hle|_]; [lia|].
    rewrite (IH (row + 1) (cur + len line + 1)); [|discriminate|rewrite span_cons; lia].
    change (last (line :: line' :: lines) []) with (last (line' :: lines) []).
    f_equal. f_equal. lia.
Qed.

(** C8, as stated, fails: [get_position_from_index] raises nothing.  On
    ["ab"] the offset 5 gets the answer of the offset 2, the end of the
    buffer, and the offset -1 gets row 1, column -1. *)
Lemma position_out_of_range_counterexample :
  len (py "ab") < 5 /\
  get_position_from_index (py "ab") 5 = (1, 2) /\
  get_position_from_index (py "ab") 5 = get_position_from_index (py "ab") 2 /\
  get_position_from_index (py "ab") (-1) = (1, -1).
Proof. repeat split. Qed.

(** C8 (amended): the conversion never fails; an offset strictly greater
    than [len(content)] is given the position of the end of the buffer, the
    last row and its length, which is also the position of [len(content)]; a
    negative offset is given row 1 with the offset as the column. *)
Theorem position_out_of_range content o :
  (len content < o ->
   get_position_from_index content o =
     (len (split newline content), len (last (split newline content) [])) /\
   get_position_from_index content o =
     get_position_from_index content (len content)) /\
  (o < 0 -> get_position_from_index content o = (1, o)).
Proof.
  pose proof (span_split newline content) as Hspan.
  pose proof (split_nonempty newline content) as Hne.
  split.
  - intros Ho. unfold get_position_from_index.
    rewrite position_loop_beyond by lia.
    rewrite (position_loop_end _ 0 0 (len content) Hne) by lia.
    destruct (split newline content); [contradiction|]. split; reflexivity.
  - intros Ho. unfold get_position_from_index.
    destruct (split newline content) as [|line lines]; [contradiction|].
    cbn [position_loop]. pose proof (len_nonneg line).
    destruct (Z.leb_spec o (0 + len line)) as [_|H']; [|lia].
    f_equal. lia.
Qed.

Lemma position_out_of_range_witness :
  get_position_from_index (py "ab" ++ newline :: py "cd") 9 = (2, 2) /\
  get_position_from_index (py "ab" ++ newline :: py "cd") (-3) = (1, -3).
Proof.
  split.
  - apply (proj1 (position_out_of_range (py "ab" ++ newline :: py "cd") 9)).
    unfold len. simpl. lia.
  - apply (proj2 (position_out_of_range (py "ab" ++ newline :: py "cd") (-3))).
    lia.
Defined.

(** ** C9: requests outside the buffer *)

(** C9, as stated, fails: nothing validates the offsets of a request.  On
    the empty buffer, inserting ["x"] at offset 5 is applied at the end (the
    buffer becomes ["x"], the cursor 6); on ["abc"], deleting the range 1 to
    10 is applied up to the end (the buffer becomes ["a"]). *)
Lemma request_out_of_range_counterexample :
  in_range (content (Document_init None)) (InsertRequest (py "x") 5 0 None 0) = false /\
  apply_request (Document_init None) (InsertRequest (py "x") 5 0 None 0) =
    (mkDocument (py "x") [InsertCommand (mkBase 0 None 0 (Some 6) None) (py "x") 5] []
       (Some InsertCommandT),
     (6, None)) /\
  in_range (content (Document_init (Some (py "abc")))) (DeleteRequest 1 10 1 None 0) = false /\
  apply_request (Document_init (Some (py "abc"))) (DeleteRequest 1 10 1 None 0) =
    (mkDocument (py "a") [DeleteCommand (mkBase 1 None 0 (Some 1) None) 1 10 (py "bc")] []
       (Some DeleteCommandT),
     (1, None)).
Proof. repeat split. Qed.

(** C9 (amended): the offsets of a request are not validated and no request
    fails.  An insert at an offset at or beyond [len(content)] appends the text
    to the buffer and returns the cursor [at_offset + len(text)]; an insert
    at a negative offset [-len(content) <= at_offset < 0] is applied at
    [len(content) + at_offset]; a delete with [0 <= start <= len(content)]
    and an end at or beyond [len(content)] removes the buffer from [start] on
    and returns the cursor [start]. *)
Theorem request_out_of_range_is_clamped d :
  (forall text p cur sel wid,
      len (content d) <= p ->
      content (fst (apply_request d (InsertRequest text p cur sel wid))) =
        content d ++ text /\
      snd (apply_request d (InsertRequest text p cur sel wid)) = (p + len text, None)) /\
  (forall text p cur sel wid,
      - len (content d) <= p < 0 ->
      content (fst (apply_request d (InsertRequest text p cur sel wid))) =
        slice_to (content d) (len (content d) + p) ++ text ++
        slice_from (content d) (len (content d) + p)) /\
  (forall s e cur sel wid,
      0 <= s <= len (content d) ->
      len (content d) <= e ->
      content (fst (apply_request d (DeleteRequest s e cur sel wid))) =
        slice_to (content d) s /\
      snd (apply_request d (DeleteRequest s e cur sel wid)) = (s, None)).
Proof.
  split; [|split].
  - intros text p cur sel wid Hp. unfold apply_request.
    destruct (execute_command_result d
                (build_command (content d) (InsertRequest text p cur sel wid)))
      as [-> ->].
    cbn [build_command InsertCommand_init execute fst snd].
    rewrite slice_to_beyond, slice_from_beyond by exact Hp.
    rewrite app_nil_r. auto.
  - intros text p cur sel wid Hp. unfold apply_request.
    destruct (execute_command_result d
                (build_command (content d) (InsertRequest text p cur sel wid)))
      as [-> _].
    cbn [build_command InsertCommand_init execute fst snd].
    unfold slice_to, slice_from, clamp_index.
    destruct (Z.ltb_spec p 0) as [_|H]; [|lia].
    destruct (Z.ltb_spec (len (content d) + p) 0) as [H|_]; [lia|].
    replace (Z.max 0 (p + len (content d))) with (len (content d) + p) by lia.
    replace (Z.min (len (content d) + p) (len (content d)))
      with (len (content d) + p) by lia.
    reflexivity.
  - intros s e cur sel wid Hs He. unfold apply_request.
    destruct (execute_command_result d
                (build_command (content d) (DeleteRequest s e cur sel wid)))
      as [-> ->].
    cbn [build_command DeleteCommand_init execute fst snd].
    rewrite slice_from_beyond by exact He.
    rewrite app_nil_r. auto.
Qed.

Lemma request_out_of_range_is_clamped_witness :
  content (fst (apply_request (Document_init (Some (py "ab")))
                  (InsertRequest (py "x") 7 0 None 0))) = py "abx" /\
  content (fst (apply_request (Document_init (Some (py "ab")))
                  (InsertRequest (py "x") (-1) 0 None 0))) = py "axb" /\
  content (fst (apply_request (Document_init (Some (py "ab")))
                  (DeleteRequest 1 7 0 None 0))) = py "a".
Proof.
  pose proof (request_out_of_range_is_clamped (Document_init (Some (py "ab"))))
    as (H1 & H2 & H3).
  split; [|split].
  - apply (H1 (py "x") 7 0 None 0). unfold len. simpl. lia.
  - apply (H2 (py "x") (-1) 0 None 0). unfold len. simpl. lia.
  - apply (H3 1 7 0 None 0); unfold len; simpl; lia.
Defined.

(** ** C10: forward execution clears the selection *)

(** C10: [execute] of an insert or a delete command returns the selection
    [None]; so does every [redo] that finds an entry; and after an [undo]
    that found an entry, whatever selection it restored, the next [redo]
    finds that entry and returns the selection [None] for the same view. *)
Theorem forward_execution_selects_nothing :
  (forall cmd c, snd (snd (execute cmd c)) = None) /\
  (forall d wid d' cur sel w, redo d wid = (d', Moved cur sel w) -> sel = None) /\
  (forall d wid wid' d1 cur1 sel1 w1,
      undo d wid = (d1, Moved cur1 sel1 w1) ->
      exists d2 cur2, redo d1 wid' = (d2, Moved cur2 None w1)).
Proof.
  assert (Hx : forall cmd c, snd (snd (execute cmd c)) = None)
    by (intros [] c; reflexivity).
  split; [exact Hx|]. split.
  - intros d wid d' cur sel w H.
    destruct (stack_cases (redo_stack d)) as [E | (rest & cmd & E)].
    + rewrite redo_empty in H by exact E. discriminate.
    + rewrite (redo_snoc _ _ _ _ E) in H. inversion H; subst. apply Hx.
  - intros d wid wid' d1 cur1 sel1 w1 H.
    destruct (stack_cases (undo_stack d)) as [E | (rest & cmd & E)].
    + rewrite undo_empty in H by exact E. discriminate.
    + rewrite (undo_snoc _ _ _ _ E) in H. inversion H; subst.
      eexists. eexists. rewrite (redo_snoc _ wid' (redo_stack d) cmd) by reflexivity.
      rewrite Hx. reflexivity.
Qed.

Lemma forward_execution_selects_nothing_witness :
  let d1 := fst (apply_request (Document_init (Some (py "hello")))
                   (DeleteRequest 1 4 4 (Some (Some 1, Some 4)) 0)) in
  snd (undo d1 0) = Moved 4 (Some (Some 1, Some 4)) 0 /\
  exists d2 cur2, redo (fst (undo d1 0)) 0 = (d2, Moved cur2 None 0).
Proof.
  split; [reflexivity|].
  apply (proj2 (proj2 forward_execution_selects_nothing)
           (fst (apply_request (Document_init (Some (py "hello")))
                   (DeleteRequest 1 4 4 (Some (Some 1, Some 4)) 0)))
           0 0 _ 4 (Some (Some 1, Some 4)) 0).
  reflexivity.
Defined.

(** ** Two runs of the engine *)

(** On ["ab\ncd"], inserting ["X"] at offset 1 gives ["aXb\ncd"] and the
    cursor 2; the undo gives the buffer back and the cursor 1; the redo gives
    ["aXb\ncd"] and the cursor 2 again. *)
Example insert_undo_redo_run :
  let c0 := py "ab" ++ newline :: py "cd" in
  let c1 := py "aXb" ++ newline :: py "cd" in
  let d0 := Document_init (Some c0) in
  let r1 := apply_request d0 (InsertRequest (py "X") 1 1 None 0) in
  let r2 := undo (fst r1) 0 in
  let r3 := redo (fst r2) 0 in
  content (fst r1) = c1 /\ snd r1 = (2, None) /\
  content (fst r2) = c0 /\ snd r2 = Moved 1 None 0 /\
  content (fst r3) = c1 /\ snd r3 = Moved 2 None 0.
Proof. repeat split. Qed.

(** On ["hello"] with the selection (1, 4), deleting the selection gives
    ["ho"], the cursor 1 and no selection. *)
Example delete_selection_run :
  let d0 := Document_init (Some (py "hello")) in
  let r1 := apply_request d0 (DeleteRequest 1 4 4 (Some (Some 1, Some 4)) 0) in
  content (fst r1) = py "ho" /\ snd r1 = (1, None).
Proof. repeat split. Qed.

(** * Further properties of the engine *)

(** ** Grouping needs the same view and the same kind *)

(** X1: an edit is never merged into an entry of another view, nor into an
    entry of the other kind, nor on an empty undo stack: it is pushed as a
    new entry, the command as [execute] left it. *)
Theorem other_view_or_kind_starts_new_entry d cmd :
  (undo_stack d = [] \/
   exists rest last_cmd,
     undo_stack d = rest ++ [last_cmd] /\
     (window_id (base cmd) <> window_id (base last_cmd) \/
      type_of cmd <> type_of last_cmd)) ->
  undo_stack (fst (execute_command d cmd)) =
    undo_stack d ++ [fst (fst (execute cmd (content d)))] /\
  last_command_type (fst (execute_command d cmd)) = Some (type_of cmd).
Proof.
  intros H.
  assert (Hg : can_group_with_last d cmd = false).
  { unfold can_group_with_last.
    destruct H as [-> | (rest & last_cmd & -> & H)]; [reflexivity|].
    rewrite pop_snoc. destruct H as [H|H].
    - destruct (CommandType_eqb _ _); [|reflexivity]. simpl.
      destruct (Z.eqb_spec (window_id (base cmd)) (window_id (base last_cmd)));
        [contradiction | reflexivity].
    - destruct (type_of cmd), (type_of last_cmd); try reflexivity; contradiction. }
  rewrite (execute_command_push d cmd Hg). unfold push_command.
  destruct (execute cmd (content d)) as [[cmd' c'] [cur sel]]. auto.
Qed.

Lemma other_view_or_kind_starts_new_entry_witness :
  let d1 := fst (apply_request (Document_init None) (InsertRequest (py "a") 0 0 None 0)) in
  let d2 := fst (apply_request d1 (InsertRequest (py "b") 1 1 None 1)) in
  undo_stack d2 =
    [InsertCommand (mkBase 0 None 0 (Some 1) None) (py "a") 0;
     InsertCommand (mkBase 1 None 1 (Some 2) None) (py "b") 1].
Proof.
  apply (other_view_or_kind_starts_new_entry
           (fst (apply_request (Document_init None) (InsertRequest (py "a") 0 0 None 0)))
           (InsertCommand_init (py "b") 1 1 None 1)).
  right. exists [], (InsertCommand (mkBase 0 None 0 (Some 1) None) (py "a") 0).
  split; [reflexivity|]. left. discriminate.
Defined.

(** ** Where a request leaves the cursor *)

(** X2: a request within the buffer returns a cursor within the new buffer
    and no selection; an insert lengthens the buffer by the text, a delete
    shortens it by the range. *)
Theorem request_in_range_cursor_in_buffer d r :
  in_range (content d) r = true ->
  0 <= fst (snd (apply_request d r)) <= len (content (fst (apply_request d r))) /\
  snd (snd (apply_request d r)) = None /\
  len (content (fst (apply_request d r))) =
    match r with
    | InsertRequest text _ _ _ _ => len (content d) + len text
    | DeleteRequest start end_ _ _ _ => len (content d) - (end_ - start)
    end.
Proof.
  intros Hr. unfold apply_request.
  destruct (execute_command_result d (build_command (content d) r)) as [-> ->].
  destruct r as [text p cur sel wid | s e cur sel wid].
  - apply in_range_insert in Hr.
    destruct (cut_at (content d) p Hr) as (pre & post & Hc & Hp).
    cbn [build_command InsertCommand_init execute fst snd]. rewrite Hc.
    rewrite (slice_to_eq _ pre post), (slice_from_eq _ pre post) by slice_side.
    rewrite !len_app. pose proof (len_nonneg text). pose proof (len_nonneg post).
    repeat split; lia.
  - apply in_range_delete in Hr. destruct Hr as (H0 & H1 & H2).
    destruct (cut_range (content d) s e H0 H1 H2) as (pre & mid & post & Hc & Hp & Hm).
    cbn [build_command DeleteCommand_init execute fst snd]. rewrite Hc.
    rewrite (slice_to_eq _ pre (mid ++ post)) by slice_side.
    rewrite (slice_from_eq _ (pre ++ mid) post) by slice_side.
    rewrite !len_app. pose proof (len_nonneg post).
    repeat split; lia.
Qed.

Lemma request_in_range_cursor_in_buffer_witness :
  0 <= fst (snd (apply_request (Document_init (Some (py "hello")))
                   (DeleteRequest 1 4 4 None 0))) <=
  len (content (fst (apply_request (Document_init (Some (py "hello")))
                       (DeleteRequest 1 4 4 None 0)))).
Proof.
  apply (request_in_range_cursor_in_buffer (Document_init (Some (py "hello")))
           (DeleteRequest 1 4 4 None 0)).
  reflexivity.
Defined.

(** ** Undo and redo are inverse to each other *)

Lemma settled_execute cmd c : settled (fst (fst (execute cmd c))).
Proof. destruct cmd; simpl; auto. Qed.

Lemma execute_settled cmd c : settled cmd -> fst (fst (execute cmd c)) = cmd.
Proof.
  destruct cmd as [[cb sb w ca sa] text pos | [cb sb w ca sa] start end_ del];
    simpl; intros [-> ->]; reflexivity.
Qed.

Lemma execute_command_settled d cmd :
  Forall settled (undo_stack d) ->
  Forall settled (undo_stack (fst (execute_command d cmd))).
Proof.
  intros Hs.
  assert (Hpush : Forall settled (undo_stack (fst (push_command d cmd)))).
  { unfold push_command. pose proof (settled_execute cmd (content d)) as Hc.
    destruct (execute cmd (content d)) as [[cmd' c'] [cur sel]]. simpl in *.
    apply Forall_app. split; [exact Hs | constructor; [exact Hc | constructor]]. }
  unfold execute_command.
  destruct (can_group_with_last d cmd); [|exact Hpush].
  destruct (pop (undo_stack d)) as [[rest last_cmd]|] eqn:Ep; [|exact Hpush].
  apply pop_Some in Ep. rewrite Ep in Hs. apply Forall_app in Hs.
  destruct Hs as [Hrest _].
  destruct cmd as [cb ctext cpos | cb cstart cend cdel];
    destruct last_cmd as [lb ltext lpos | lb lstart lend ldel];
    try exact Hpush.
  - destruct (Z.eqb_spec cpos (lpos + len ltext)) as [E|_]; [|exact Hpush].
    unfold finish_merge. simpl. apply Forall_app. split; [exact Hrest|].
    constructor; [|constructor]. simpl. rewrite len_app, E. split; [f_equal; lia | reflexivity].
  - destruct (Z.eqb_spec cend lstart) as [E|_].
    + unfold finish_merge. simpl. apply Forall_app. split; [exact Hrest|].
      constructor; [|constructor]. simpl. auto.
    + destruct (Z.eqb_spec cstart lstart) as [E|_]; [|exact Hpush].
      unfold finish_merge. simpl. apply Forall_app. split; [exact Hrest|].
      constructor; [|constructor]. simpl. rewrite E. auto.
Qed.

Lemma reachable_settled ok file d :
  reachable ok file d ->
  Forall settled (undo_stack d) /\ Forall settled (redo_stack d).
Proof.
  induction 1 as [| d r _ [IHu IHr] Hok | d wid _ [IHu IHr] | d wid _ [IHu IHr]].
  - split; constructor.
  - split.
    + unfold apply_request. apply execute_command_settled, IHu.
    + unfold apply_request. rewrite execute_command_redo_stack. constructor.
  - destruct (stack_cases (undo_stack d)) as [E | (rest & cmd & E)].
    + rewrite undo_empty by exact E. auto.
    + rewrite (undo_snoc _ _ _ _ E). simpl. rewrite E in IHu.
      apply Forall_app in IHu. destruct IHu as [Hrest Hcmd].
      split; [exact Hrest|]. apply Forall_app. auto.
  - destruct (stack_cases (redo_stack d)) as [E | (rest & cmd & E)].
    + rewrite redo_empty by exact E. auto.
    + rewrite (redo_snoc _ _ _ _ E). simpl. rewrite E in IHr.
      apply Forall_app in IHr. destruct IHr as [Hrest Hcmd].
      split; [|exact Hrest]. apply Forall_app. split; [exact IHu|].
      constructor; [apply settled_execute | constructor].
Qed.

(** X3: at every state a loaded document reaches through requests within
    the buffer that the Delete-key rule does not merge, and through undos and
    redos, an undo that finds an entry followed by a redo gives the document
    back as it was (content, both stacks, every field of every entry), and
    so does a redo that finds an entry followed by an undo. *)
Theorem undo_and_redo_are_inverse file d wid wid' :
  reachable plain_request file d ->
  (undo_stack d <> [] -> fst (redo (fst (undo d wid)) wid') = d) /\
  (redo_stack d <> [] -> fst (undo (fst (redo d wid)) wid') = d).
Proof.
  intros Hreach.
  destruct (reachable_history_ok file d Hreach) as [Hu (c_end & Hr)].
  destruct (reachable_settled _ file d Hreach) as [Su Sr].
  split; intros Hne.
  - destruct (stack_cases (undo_stack d)) as [E | (rest & cmd & E)]; [contradiction|].
    rewrite (undo_snoc _ _ _ _ E). cbn [fst].
    rewrite (redo_snoc _ wid' (redo_stack d) cmd) by reflexivity.
    cbn [fst content undo_stack redo_stack last_command_type].
    rewrite E in Hu, Su. apply chain_snoc in Hu. destruct Hu as (c' & _ & Hl & Hx).
    apply Forall_app in Su. destruct Su as [_ Scmd]. inversion Scmd; subst.
    rewrite (linked_undo _ _ _ Hl), (linked_execute _ _ _ Hl (Hx eq_refl)).
    rewrite execute_settled by assumption.
    destruct d; simpl in *; subst; reflexivity.
  - destruct (stack_cases (redo_stack d)) as [E | (rest & cmd & E)]; [contradiction|].
    rewrite (redo_snoc _ _ _ _ E). cbn [fst].
    rewrite E in Hr, Sr. rewrite rev_app_distr in Hr. simpl in Hr.
    destruct Hr as (c1 & [Hl Hx] & _).
    apply Forall_app in Sr. destruct Sr as [_ Scmd]. inversion Scmd; subst.
    rewrite execute_settled by assumption.
    rewrite (undo_snoc _ wid' (undo_stack d) cmd) by reflexivity.
    cbn [fst content undo_stack redo_stack last_command_type].
    rewrite (linked_execute _ _ _ Hl (Hx eq_refl)), (linked_undo _ _ _ Hl).
    destruct d; simpl in *; subst; reflexivity.
Qed.

Lemma undo_and_redo_are_inverse_witness :
  let d0 := Document_init (Some (py "hello")) in
  let d1 := fst (apply_request d0 (DeleteRequest 3 4 4 None 0)) in
  let d2 := fst (apply_request d1 (InsertRequest (py "p") 3 3 None 1)) in
  fst (redo (fst (undo d2 0)) 0) = d2 /\
  fst (undo (fst (redo (fst (undo d2 0)) 0)) 0) = fst (undo d2 0).
Proof.
  assert (R2 : reachable plain_request (Some (py "hello"))
                 (fst (apply_request
                         (fst (apply_request (Document_init (Some (py "hello")))
                                 (DeleteRequest 3 4 4 None 0)))
                         (InsertRequest (py "p") 3 3 None 1)))).
  { apply reach_apply; [|reflexivity]. apply reach_apply; [|reflexivity].
    apply reach_init. }
  split.
  - apply (proj1 (undo_and_redo_are_inverse (Some (py "hello")) _ 0 0 R2)).
    discriminate.
  - apply (proj2 (undo_and_redo_are_inverse (Some (py "hello")) _ 0 0
                    (reach_undo _ _ _ 0 R2))).
    discriminate.
Defined.

(** ** The Delete-key rule *)

(** X4: two presses of the Delete key at one offset, from one view, are
    merged into one entry that holds both characters but the range of the
    last press only.  One undo gives the buffer back; the redo that follows
    deletes a single character, so it does not give back the buffer the
    undo started from. *)
Theorem delete_key_run_redo_deletes_one d pre a b post cur1 sel1 cur2 sel2 wid w1 w2 :
  content d = pre ++ a :: b :: post ->
  can_group_with_last d
    (DeleteCommand_init (content d) (len pre) (len pre + 1) cur1 sel1 wid) = false ->
  let d2 :=
    apply_all d [DeleteRequest (len pre) (len pre + 1) cur1 sel1 wid;
                 DeleteRequest (len pre) (len pre + 1) cur2 sel2 wid] in
  undo_stack d2 =
    undo_stack d ++
    [DeleteCommand (mkBase cur1 sel1 wid (Some (len pre)) None)
       (len pre) (len pre + 1) [a; b]] /\
  content d2 = pre ++ post /\
  content (fst (undo d2 w1)) = pre ++ a :: b :: post /\
  content (fst (redo (fst (undo d2 w1)) w2)) = pre ++ b :: post.
Proof.
  intros Hc Hg d2.
  assert (Hdel1 : slice (content d) (len pre) (len pre + 1) = [a]).
  { rewrite Hc. apply (slice_eq _ pre [a] (b :: post)); reflexivity. }
  assert (Hdel2 : slice (pre ++ b :: post) (len pre) (len pre + 1) = [b]).
  { apply (slice_eq _ pre [b] post); reflexivity. }
  assert (Hn : (len pre + 1 =? len pre) = false) by (apply Z.eqb_neq; lia).
  assert (Ed2 : d2 =
                mkDocument (pre ++ post)
                  (undo_stack d ++
                   [DeleteCommand (mkBase cur1 sel1 wid (Some (len pre)) None)
                      (len pre) (len pre + 1) [a; b]])
                  [] (Some DeleteCommandT)).
  { subst d2. unfold apply_all, apply_request. cbn [fold_left build_command].
    rewrite (execute_command_push d) by exact Hg.
    unfold DeleteCommand_init, Command_init, push_command.
    cbn [execute fst snd type_of content]. rewrite Hdel1, Hc.
    rewrite (slice_to_eq _ pre (a :: b :: post)) by reflexivity.
    rewrite (slice_from_eq _ (pre ++ [a]) (b :: post)) by slice_side.
    rewrite Hdel2.
    unfold execute_command.
    erewrite can_group_with_last_snoc by reflexivity.
    cbn [undo_stack]. rewrite pop_snoc, Hn, Z.eqb_refl.
    unfold finish_merge. cbn [execute content last_command_type set_after
      cursor_before selection_before window_id fst snd].
    rewrite (slice_to_eq _ pre (b :: post)) by reflexivity.
    rewrite (slice_from_eq _ (pre ++ [b]) post) by slice_side.
    reflexivity. }
  rewrite Ed2. cbn [undo_stack content]. split; [reflexivity|].
  split; [reflexivity|].
  erewrite undo_snoc by reflexivity.
  cbn [fst content undo_command].
  rewrite (slice_to_eq _ pre post), (slice_from_eq _ pre post) by reflexivity.
  split; [reflexivity|].
  erewrite redo_snoc by reflexivity.
  cbn [fst snd content execute].
  rewrite (slice_to_eq _ pre ([a; b] ++ post)) by reflexivity.
  rewrite (slice_from_eq _ (pre ++ [a]) (b :: post)) by slice_side.
  reflexivity.
Qed.

Lemma delete_key_run_redo_deletes_one_witness :
  let d2 :=
    apply_all (Document_init (Some (py "hello")))
      [DeleteRequest 1 2 1 None 0; DeleteRequest 1 2 1 None 0] in
  content d2 = py "hlo" /\
  content (fst (undo d2 0)) = py "hello" /\
  content (fst (redo (fst (undo d2 0)) 0)) = py "hllo".
Proof.
  pose proof (delete_key_run_redo_deletes_one (Document_init (Some (py "hello")))
                (py "h") "e"%char "l"%char (py "lo") 1 None 1 None 0 0 0
                eq_refl eq_refl) as (_ & H2 & H3 & H4).
  split; [exact H2|]. split; [exact H3 | exact H4].
Defined.

(** ** From a row and a column to an offset and back *)

Lemma span_firstn_le (lines : list str) k : span (firstn k lines) <= span lines.
Proof.
  revert k. induction lines as [|line lines IH]; intros k.
  - rewrite firstn_nil. lia.
  - destruct k as [|k].
    + change (span (firstn 0 (line :: lines))) with 0. apply span_nonneg.
    + change (firstn (S k) (line :: lines)) with (line :: firstn k lines).
      rewrite !span_cons. specialize (IH k). lia.
Qed.

(** The end of row [k + 1] lies within the lines. *)
Lemma span_row_end (lines : list str) k :
  (k < length lines)%nat ->
  span (firstn k lines) + len (nth k lines []) <= span lines - 1.
Proof.
  intros Hk. pose proof (span_firstn_le lines (S k)) as H.
  rewrite span_firstn_S in H by exact Hk. lia.
Qed.

(** The loop of [get_position_from_index] stops in row [k + 1] for a
    position between the start and the end of that row. *)
Lemma position_loop_at (lines : list str) k row current_pos pos :
  (k < length lines)%nat ->
  current_pos + span (firstn k lines) <= pos ->
  pos <= current_pos + span (firstn k lines) + len (nth k lines []) ->
  position_loop lines row current_pos pos =
    Some (row + Z.of_nat k + 1, pos - current_pos - span (firstn k lines)).
Proof.
  revert k row current_pos.
  induction lines as [|line lines IH]; intros k row cur Hk Hlo Hhi;
    [simpl in Hk; lia|].
  destruct k as [|k].
  - change (span (firstn 0 (line :: lines))) with 0 in *.
    simpl nth in Hhi. cbn [position_loop].
    destruct (Z.leb_spec pos (cur + len line)) as [_|H]; [|lia].
    f_equal. f_equal; lia.
  - change (firstn (S k) (line :: lines)) with (line :: firstn k lines) in *.
    change (nth (S k) (line :: lines) []) with (nth k lines []) in *.
    rewrite span_cons in *. pose proof (span_nonneg (firstn k lines)).
    cbn [position_loop].
    destruct (Z.leb_spec pos (cur + len line)) as [H'|_]; [lia|].
    rewrite (IH k (row + 1) (cur + len line + 1)) by (simpl in Hk; lia).
    f_equal. f_equal; lia.
Qed.

(** From a position not before [current_pos] the loop returns a column. *)
Lemma position_loop_column (lines : list str) row current_pos pos r c :
  current_pos <= pos ->
  position_loop lines row current_pos pos = Some (r, c) ->
  0 <= c.
Proof.
  revert row current_pos.
  induction lines as [|line lines IH]; intros row cur Hle H; [discriminate|].
  cbn [position_loop] in H.
  destruct (Z.leb_spec pos (cur + len line)) as [_|Hgt].
  - inversion H; subst. lia.
  - apply (IH (row + 1) (cur + len line + 1)); [lia | exact H].
Qed.

(** The first loop of [get_index_from_position] for a row past the last
    line adds up all the lines. *)
Lemma rows_above_all (lines : list str) k :
  (length lines <= k)%nat ->
  fold_left
    (fun pos i =>
       if Z.of_nat i <? len lines then pos + len (nth i lines []) + 1 else pos)
    (seq 0 k) 0 = span lines.
Proof.
  induction k as [|k IH]; intros Hk.
  - destruct lines; [reflexivity | simpl in Hk; lia].
  - destruct (Nat.eq_dec (length lines) (S k)) as [E|N].
    + rewrite rows_above by lia. rewrite <- E, firstn_all. reflexivity.
    + rewrite seq_S, fold_left_app, IH by lia. cbn [fold_left Nat.add].
      destruct (Z.ltb_spec (Z.of_nat k) (len lines)) as [H|_];
        [unfold len in H; lia | reflexivity].
Qed.

(** What [get_position_from_index] returns for an offset of the buffer. *)
Lemma position_of_offset content o :
  0 <= o <= len content ->
  exists k,
    (k < length (split newline content))%nat /\
    get_position_from_index content o =
      (Z.of_nat k + 1, o - span (firstn k (split newline content))) /\
    0 <= o - span (firstn k (split newline content))
      <= len (nth k (split newline content) []).
Proof.
  intros Ho. unfold get_position_from_index.
  pose proof (span_split newline content) as Hspan.
  pose proof (split_nonempty newline content) as Hne.
  set (lines := split newline content) in *.
  destruct (position_loop_finds lines 0 0 o) as (k & Hk & Hloop & Hcol);
    [left; exact Hne | lia |].
  exists k. split; [exact Hk|]. rewrite Hloop.
  pose proof (position_loop_column lines 0 0 o _ _ (proj1 Ho) Hloop) as Hc.
  split; [f_equal; lia | lia].
Qed.

(** What [get_index_from_position] returns for a row of the buffer. *)
Lemma offset_of_position content k col :
  (k < length (split newline content))%nat ->
  get_index_from_position content (Z.of_nat k + 1) col =
    Some (span (firstn k (split newline content)) +
          Z.min col (len (nth k (split newline content) []))).
Proof.
  intros Hk. unfold get_index_from_position.
  set (lines := split newline content) in *.
  replace (Z.of_nat k + 1 - 1) with (Z.of_nat k) by lia.
  rewrite Nat2Z.id, rows_above by lia.
  destruct (Z.ltb_spec (Z.of_nat k) (len lines)) as [_|H]; [|unfold len in H; lia].
  unfold py_index.
  destruct (Z.leb_spec 0 (Z.of_nat k)) as [_|H]; [|lia].
  rewrite Nat2Z.id, (nth_error_nth' lines [] Hk). reflexivity.
Qed.

(** X5: for a row of the buffer and a column that is not negative,
    [get_index_from_position] returns an offset of the buffer, and
    [get_position_from_index] takes that offset back to the row and to the
    column clamped to the length of the row. *)
Theorem index_of_position_roundtrip content row col :
  1 <= row <= len (split newline content) ->
  0 <= col ->
  exists o,
    get_index_from_position content row col = Some o /\
    0 <= o <= len content /\
    get_position_from_index content o =
      (row, Z.min col (len (nth (Z.to_nat (row - 1)) (split newline content) []))).
Proof.
  intros Hrow Hcol.
  pose proof (span_split newline content) as Hspan.
  set (lines := split newline content) in *.
  set (k := Z.to_nat (row - 1)).
  assert (Hk : (k < length lines)%nat) by (unfold len in Hrow; lia).
  assert (Er : row = Z.of_nat k + 1) by lia.
  pose proof (span_row_end lines k Hk) as Hend.
  pose proof (span_nonneg (firstn k lines)) as Hpre.
  pose proof (len_nonneg (nth k lines [])) as Hline.
  exists (span (firstn k lines) + Z.min col (len (nth k lines []))).
  split; [rewrite Er; apply offset_of_position; exact Hk|].
  split; [lia|].
  unfold get_position_from_index. fold lines.
  rewrite (position_loop_at lines k 0 0) by (try exact Hk; lia).
  f_equal; lia.
Qed.

Lemma index_of_position_roundtrip_witness :
  exists o,
    get_index_from_position (py "ab" ++ newline :: py "cd") 2 7 = Some o /\
    0 <= o <= len (py "ab" ++ newline :: py "cd") /\
    get_position_from_index (py "ab" ++ newline :: py "cd") o = (2, 2).
Proof.
  apply (index_of_position_roundtrip (py "ab" ++ newline :: py "cd") 2 7).
  - unfold len. simpl. lia.
  - lia.
Defined.

(** X6: for an offset of the buffer [get_position_from_index] returns a
    position of the buffer: a row between 1 and the number of rows, and a
    column between 0 and the length of that row. *)
Theorem position_of_index_in_buffer content o :
  0 <= o <= len content ->
  1 <= fst (get_position_from_index content o) <= len (split newline content) /\
  0 <= snd (get_position_from_index content o) <=
    len (nth (Z.to_nat (fst (get_position_from_index content o) - 1))
           (split newline content) []).
Proof.
  intros Ho. destruct (position_of_offset content o Ho) as (k & Hk & -> & Hcol).
  cbn [fst snd]. replace (Z.to_nat (Z.of_nat k + 1 - 1)) with k by lia.
  unfold len at 1. split; [lia | exact Hcol].
Qed.

Lemma position_of_index_in_buffer_witness :
  1 <= fst (get_position_from_index (py "ab" ++ newline :: py "cd") 3) <= 2 /\
  0 <= snd (get_position_from_index (py "ab" ++ newline :: py "cd") 3) <= 2.
Proof.
  apply (position_of_index_in_buffer (py "ab" ++ newline :: py "cd") 3).
  unfold len. simpl. lia.
Defined.

(** X7: rows outside the buffer.  For a row past the last one
    [get_index_from_position] adds up every line and clamps the column to 0:
    with a column that is not negative the offset is [len(content) + 1], one
    past the end of the buffer.  For a row so far below 1 that [lines[row - 1]]
    does not exist, it raises [IndexError]. *)
Theorem index_of_position_outside_rows content row col :
  (len (split newline content) < row ->
   get_index_from_position content row col = Some (len content + 1 + Z.min col 0)) /\
  (row - 1 < - len (split newline content) ->
   get_index_from_position content row col = None).
Proof.
  pose proof (span_split newline content) as Hspan.
  unfold get_index_from_position.
  set (lines := split newline content) in *. split; intros Hrow.
  - rewrite rows_above_all by (unfold len in Hrow; lia).
    destruct (Z.ltb_spec (row - 1) (len lines)) as [H|_]; [lia|].
    rewrite Hspan. reflexivity.
  - pose proof (len_nonneg lines).
    destruct (Z.ltb_spec (row - 1) (len lines)) as [_|H']; [|lia].
    unfold py_index.
    destruct (Z.leb_spec 0 (row - 1)) as [H'|_]; [lia|].
    destruct (Z.leb_spec 0 (row - 1 + len lines)) as [H'|_]; [lia|].
    reflexivity.
Qed.

Lemma index_of_position_outside_rows_witness :
  get_index_from_position (py "ab" ++ newline :: py "cd") 3 1 = Some 6 /\
  get_index_from_position (py "ab" ++ newline :: py "cd") (-2) 1 = None.
Proof.
  split.
  - apply (proj1 (index_of_position_outside_rows
                    (py "ab" ++ newline :: py "cd") 3 1)).
    unfold len. simpl. lia.
  - apply (proj2 (index_of_position_outside_rows
                    (py "ab" ++ newline :: py "cd") (-2) 1)).
    unfold len. simpl. lia.
Defined.

(** * Properties of the windows *)

(** ** The arrow keys *)

Lemma rows_before_span (lines : list str) k :
  (k <= length lines)%nat ->
  EditorWindow.rows_before lines k = span (firstn k lines).
Proof.
  unfold EditorWindow.rows_before.
  induction k as [|k IH]; intros Hk; [reflexivity|].
  rewrite seq_S, fold_left_app, IH by lia. cbn [fold_left Nat.add].
  rewrite span_firstn_S by lia. reflexivity.
Qed.

Lemma py_index_inside {A : Type} (l : list A) i :
  0 <= i < len l -> exists x, py_index l i = Some x.
Proof.
  intros H. unfold py_index.
  destruct (Z.leb_spec 0 i) as [_|H']; [|lia].
  destruct (nth_error l (Z.to_nat i)) as [x|] eqn:E; [eauto|].
  apply nth_error_None in E. unfold len in H. lia.
Qed.

Lemma py_index_beyond {A : Type} (l : list A) i :
  len l <= i -> py_index l i = None.
Proof.
  intros H. pose proof (len_nonneg l). unfold py_index.
  destruct (Z.leb_spec 0 i) as [_|H']; [|lia].
  apply nth_error_None. unfold len in H. lia.
Qed.

(** The Up/Down branch of [handle_arrow_key] for a cursor in row [k + 1]
    at column [col]: the goal column is kept or becomes [col], and the cursor
    goes to the row [target + 1] when the buffer has that row. *)
Lemma vertical_move s c key k col :
  (key = Up \/ key = Down) ->
  get_position_from_index c (EditorWindow.cursor_pos s) = (Z.of_nat k + 1, col) ->
  let goal := match EditorWindow.cursor_x_goal s with None => col | Some g => g end in
  let s1 := EditorWindow.with_x_goal (EditorWindow.with_selection s None None)
              (Some goal) in
  let target := match key with Up => Z.of_nat k - 1 | _ => Z.of_nat k + 1 end in
  EditorWindow.handle_arrow_key s c key =
    Done
      (if (0 <=? target) && (target <? len (split newline c))
       then EditorWindow.with_cursor s1
              (span (firstn (Z.to_nat target) (split newline c)) +
               Z.min goal (len (nth (Z.to_nat target) (split newline c) [])))
       else s1).
Proof.
  intros Hkey Hpos goal s1 target.
  assert (E : EditorWindow.handle_arrow_key s c key =
              let row := match key with Up => Z.of_nat k + 1 - 1 | _ => Z.of_nat k + 1 + 1 end in
              if (0 <=? row - 1) && (row - 1 <? len (split newline c)) then
                Done (EditorWindow.with_cursor s1
                        (EditorWindow.rows_before (split newline c) (Z.to_nat (row - 1)) +
                         Z.min goal (len (nth (Z.to_nat (row - 1)) (split newline c) []))))
              else Done s1).
  { unfold EditorWindow.handle_arrow_key.
    destruct Hkey as [-> | ->]; cbn [EditorWindow.cursor_pos EditorWindow.with_selection
      EditorWindow.cursor_x_goal]; rewrite Hpos; reflexivity. }
  rewrite E. cbv zeta.
  replace (match key with Up => Z.of_nat k + 1 - 1 | _ => Z.of_nat k + 1 + 1 end - 1)
    with target by (subst target; destruct Hkey as [-> | ->]; lia).
  destruct (Z.leb_spec 0 target) as [H0|_]; [|reflexivity].
  destruct (Z.ltb_spec target (len (split newline c))) as [H1|_]; [|reflexivity].
  cbn [andb]. rewrite rows_before_span by (unfold len in H1; lia). reflexivity.
Qed.

(** Projections of the fields of a window after the handlers' updates. *)
Ltac view_simpl :=
  cbn [EditorWindow.cursor_pos EditorWindow.selection_start
       EditorWindow.selection_end EditorWindow.cursor_x_goal
       EditorWindow.window_id EditorWindow.drag_start
       EditorWindow.shift_drag_anchor EditorWindow.with_cursor
       EditorWindow.with_selection EditorWindow.with_x_goal
       EditorWindow.settle andb fst snd] in *.

(** X8: with the cursor within the buffer and a goal column that is a
    column, an arrow key does not raise, clears the selection, and leaves the
    cursor within the buffer and the goal column a column. *)
Theorem arrow_key_keeps_cursor_in_buffer s c key :
  cursor_in_buffer s c ->
  goal_is_column s ->
  exists s',
    EditorWindow.handle_arrow_key s c key = Done s' /\
    cursor_in_buffer s' c /\
    goal_is_column s' /\
    EditorWindow.selection_start s' = None /\
    EditorWindow.selection_end s' = None.
Proof.
  intros Hc Hg. unfold cursor_in_buffer, goal_is_column in *.
  assert (Hv : key = Up \/ key = Down ->
               exists s',
                 EditorWindow.handle_arrow_key s c key = Done s' /\
                 0 <= EditorWindow.cursor_pos s' <= len c /\
                 match EditorWindow.cursor_x_goal s' with
                 | Some g => 0 <= g
                 | None => True
                 end /\
                 EditorWindow.selection_start s' = None /\
                 EditorWindow.selection_end s' = None).
  { intros Hkey.
    destruct (position_of_offset c (EditorWindow.cursor_pos s) Hc)
      as (k & Hk & Hpos & Hcol).
    rewrite (vertical_move s c key k _ Hkey Hpos).
    set (goal := match EditorWindow.cursor_x_goal s with
                 | None => _ | Some g => g end).
    assert (Hgoal : 0 <= goal)
      by (subst goal; destruct (EditorWindow.cursor_x_goal s); lia).
    set (target := match key with Up => Z.of_nat k - 1 | _ => Z.of_nat k + 1 end).
    pose proof (span_split newline c) as Hspan.
    eexists. split; [reflexivity|].
    destruct (Z.leb_spec 0 target) as [H0|_];
      [|view_simpl; repeat split; (lia || exact Hgoal)].
    destruct (Z.ltb_spec target (len (split newline c))) as [H1|_];
      [|view_simpl; repeat split; (lia || exact Hgoal)].
    view_simpl.
    assert (Ht : (Z.to_nat target < length (split newline c))%nat)
      by (unfold len in H1; lia).
    pose proof (span_row_end _ _ Ht). pose proof (span_nonneg (firstn (Z.to_nat target)
      (split newline c))). pose proof (len_nonneg (nth (Z.to_nat target)
      (split newline c) [])).
    repeat split; (lia || exact Hgoal). }
  destruct key; try (apply Hv; auto; fail).
  - (* Left *)
    unfold EditorWindow.handle_arrow_key. cbn [EditorWindow.cursor_pos
      EditorWindow.with_selection EditorWindow.with_cursor].
    destruct (Z.ltb_spec 0 (EditorWindow.cursor_pos s)) as [Hpos|Hpos].
    + destruct (Z.ltb_spec 0 (EditorWindow.cursor_pos s - 1)) as [Hpos'|Hpos'].
      * destruct (py_index_inside c (EditorWindow.cursor_pos s - 1)) as [x ->]; [lia|].
        eexists. split; [reflexivity|]. view_simpl. repeat split; lia.
      * eexists. split; [reflexivity|]. view_simpl. repeat split; lia.
    + eexists. split; [reflexivity|]. view_simpl. repeat split; lia.
  - (* Right *)
    unfold EditorWindow.handle_arrow_key. cbn [EditorWindow.cursor_pos
      EditorWindow.with_selection EditorWindow.with_cursor].
    destruct (Z.ltb_spec (EditorWindow.cursor_pos s) (len c)) as [Hpos|Hpos].
    + destruct (Z.ltb_spec (EditorWindow.cursor_pos s + 1) (len c)) as [Hpos'|Hpos'].
      * replace (EditorWindow.cursor_pos s + 1 - 1) with (EditorWindow.cursor_pos s)
          by lia.
        destruct (py_index_inside c (EditorWindow.cursor_pos s)) as [x ->]; [lia|].
        eexists. split; [reflexivity|]. view_simpl. repeat split; lia.
      * eexists. split; [reflexivity|]. view_simpl. repeat split; lia.
    + eexists. split; [reflexivity|]. view_simpl. repeat split; lia.
Qed.

Lemma arrow_key_keeps_cursor_in_buffer_witness :
  exists s',
    EditorWindow.handle_arrow_key
      (EditorWindow.mkState 0 4 (Some 1) (Some 4) None None None)
      (py "ab" ++ newline :: py "cd") Up = Done s' /\
    cursor_in_buffer s' (py "ab" ++ newline :: py "cd") /\
    goal_is_column s' /\
    EditorWindow.selection_start s' = None /\
    EditorWindow.selection_end s' = None.
Proof.
  apply (arrow_key_keeps_cursor_in_buffer
           (EditorWindow.mkState 0 4 (Some 1) (Some 4) None None None)
           (py "ab" ++ newline :: py "cd") Up).
  - unfold cursor_in_buffer, len. simpl. lia.
  - exact I.
Defined.

(** X9: with the cursor past the end of the buffer, at an offset of 2 or
    more, the Left key raises [IndexError] on [content[cursor_pos]]; by then
    the selection is cleared and the cursor moved one to the left, and the
    goal column is as it was. *)
Theorem left_key_past_the_end_raises s c :
  len c < EditorWindow.cursor_pos s ->
  2 <= EditorWindow.cursor_pos s ->
  EditorWindow.handle_arrow_key s c Left =
    Raised IndexError
      (EditorWindow.with_cursor (EditorWindow.with_selection s None None)
         (EditorWindow.cursor_pos s - 1)).
Proof.
  intros Hend H2. unfold EditorWindow.handle_arrow_key. view_simpl.
  destruct (Z.ltb_spec 0 (EditorWindow.cursor_pos s)) as [_|H]; [|lia].
  destruct (Z.ltb_spec 0 (EditorWindow.cursor_pos s - 1)) as [_|H]; [|lia].
  rewrite py_index_beyond by lia. reflexivity.
Qed.

Lemma left_key_past_the_end_raises_witness :
  EditorWindow.handle_arrow_key
    (EditorWindow.mkState 0 3 (Some 0) None (Some 1) None None) (py "a") Left =
  Raised IndexError (EditorWindow.mkState 0 2 None None (Some 1) None None).
Proof.
  apply (left_key_past_the_end_raises
           (EditorWindow.mkState 0 3 (Some 0) None (Some 1) None None) (py "a")).
  - unfold len. simpl. lia.
  - simpl. lia.
Defined.

(** X10: from a cursor within the buffer, below the first row and without a
    goal column, the Up key followed by the Down key brings the cursor back
    to where it was, whatever the length of the row above; the goal column
    is then the column the cursor started from. *)
Theorem up_then_down_returns s c :
  cursor_in_buffer s c ->
  EditorWindow.cursor_x_goal s = None ->
  2 <= fst (get_position_from_index c (EditorWindow.cursor_pos s)) ->
  exists s1 s2,
    EditorWindow.handle_arrow_key s c Up = Done s1 /\
    EditorWindow.handle_arrow_key s1 c Down = Done s2 /\
    EditorWindow.cursor_pos s2 = EditorWindow.cursor_pos s /\
    EditorWindow.cursor_x_goal s2 =
      Some (snd (get_position_from_index c (EditorWindow.cursor_pos s))).
Proof.
  intros Hc Hg Hrow. unfold cursor_in_buffer in Hc.
  destruct (position_of_offset c (EditorWindow.cursor_pos s) Hc)
    as (k & Hk & Hpos & Hcol).
  rewrite Hpos in *. cbn [fst snd] in *.
  set (lines := split newline c) in *.
  set (col := EditorWindow.cursor_pos s - span (firstn k lines)) in *.
  destruct k as [|k]; [lia|].
  assert (Hk' : (k < length lines)%nat) by lia.
  (* Up *)
  pose proof (vertical_move s c Up (S k) col (or_introl eq_refl) Hpos) as HUp.
  cbv zeta in HUp. rewrite Hg in HUp. fold lines in HUp.
  replace (Z.of_nat (S k) - 1) with (Z.of_nat k) in HUp by lia.
  destruct (Z.leb_spec 0 (Z.of_nat k)) as [_|H] in HUp; [|lia].
  destruct (Z.ltb_spec (Z.of_nat k) (len lines)) as [_|H] in HUp;
    [|unfold len in H; lia].
  cbn [andb] in HUp. rewrite Nat2Z.id in HUp.
  set (col1 := Z.min col (len (nth k lines []))) in *.
  set (s1 := EditorWindow.with_cursor _ _) in HUp.
  assert (Hcol1 : 0 <= col1 <= len (nth k lines []))
    by (subst col1; pose proof (len_nonneg (nth k lines [])); lia).
  (* where the cursor is after Up *)
  assert (Hpos1 : get_position_from_index c (EditorWindow.cursor_pos s1) =
                  (Z.of_nat k + 1, col1)).
  { subst s1. view_simpl. unfold get_position_from_index. fold lines.
    rewrite (position_loop_at lines k 0 0) by (try exact Hk'; lia).
    f_equal; lia. }
  (* Down *)
  pose proof (vertical_move s1 c Down k col1 (or_intror eq_refl) Hpos1) as HDown.
  cbv zeta in HDown. fold lines in HDown.
  assert (Hg1 : EditorWindow.cursor_x_goal s1 = Some col) by reflexivity.
  rewrite Hg1 in HDown.
  destruct (Z.leb_spec 0 (Z.of_nat k + 1)) as [_|H] in HDown; [|lia].
  destruct (Z.ltb_spec (Z.of_nat k + 1) (len lines)) as [_|H] in HDown;
    [|unfold len in H; lia].
  cbn [andb] in HDown.
  replace (Z.to_nat (Z.of_nat k + 1)) with (S k) in HDown by lia.
  exists s1. eexists. split; [exact HUp|]. split; [exact HDown|].
  view_simpl. split; [|reflexivity]. subst col. lia.
Qed.

Lemma up_then_down_returns_witness :
  exists s1 s2,
    EditorWindow.handle_arrow_key (EditorWindow.with_cursor (EditorWindow.init 0) 7)
      (py "ab" ++ newline :: py "cdefg") Up = Done s1 /\
    EditorWindow.handle_arrow_key s1 (py "ab" ++ newline :: py "cdefg") Down = Done s2 /\
    EditorWindow.cursor_pos s2 = 7 /\
    EditorWindow.cursor_x_goal s2 = Some 4.
Proof.
  apply (up_then_down_returns
           (EditorWindow.with_cursor (EditorWindow.init 0) 7)
           (py "ab" ++ newline :: py "cdefg")).
  - unfold cursor_in_buffer, len. simpl. lia.
  - reflexivity.
  - simpl. lia.
Defined.

(** ** The editing handlers in terms of requests *)

Lemma apply_request_cursor d r :
  snd (apply_request d r) =
    (match r with
     | InsertRequest text at_offset _ _ _ => at_offset + len text
     | DeleteRequest start _ _ _ _ => start
     end, None).
Proof.
  unfold apply_request.
  rewrite (proj2 (execute_command_result d (build_command (content d) r))).
  destruct r; reflexivity.
Qed.

Lemma apply_request_content d r :
  content (fst (apply_request d r)) =
    match r with
    | InsertRequest text at_offset _ _ _ =>
        slice_to (content d) at_offset ++ text ++ slice_from (content d) at_offset
    | DeleteRequest start end_ _ _ _ =>
        slice_to (content d) start ++ slice_from (content d) end_
    end.
Proof.
  unfold apply_request.
  rewrite (proj1 (execute_command_result d (build_command (content d) r))).
  destruct r; reflexivity.
Qed.

Lemma apply_request_redo_stack d r : redo_stack (fst (apply_request d r)) = [].
Proof. apply execute_command_redo_stack. Qed.

(** A request that starts a new entry. *)
Lemma apply_request_push d r :
  can_group_with_last d (build_command (content d) r) = false ->
  undo_stack (fst (apply_request d r)) =
    undo_stack d ++ [fst (fst (execute (build_command (content d) r) (content d)))].
Proof.
  intros Hg. unfold apply_request. rewrite (execute_command_push _ _ Hg).
  unfold push_command.
  destruct (execute (build_command (content d) r) (content d)) as [[cmd' c'] [cur sel]].
  reflexivity.
Qed.

Lemma type_text_eq s d text :
  EditorWindow.type_text s d text =
    (EditorWindow.settle
       (EditorWindow.with_cursor s (EditorWindow.cursor_pos s + len text)),
     fst (apply_request d
            (InsertRequest text (EditorWindow.cursor_pos s) (EditorWindow.cursor_pos s)
               (Some (EditorWindow.selection_start s, EditorWindow.selection_end s))
               (EditorWindow.window_id s)))).
Proof.
  unfold EditorWindow.type_text.
  pose proof (apply_request_cursor d
                (InsertRequest text (EditorWindow.cursor_pos s) (EditorWindow.cursor_pos s)
                   (Some (EditorWindow.selection_start s, EditorWindow.selection_end s))
                   (EditorWindow.window_id s))) as Hc.
  destruct (apply_request d _) as [d' [cur sel]]. simpl in Hc.
  inversion Hc; subst. reflexivity.
Qed.

Lemma delete_selection_eq s d a e :
  EditorWindow.selection_start s = Some a ->
  EditorWindow.delete_selection s d e =
    Done (EditorWindow.with_cursor s (Z.min a e),
          fst (apply_request d
                 (DeleteRequest (Z.min a e) (Z.max a e) (EditorWindow.cursor_pos s)
                    (Some (Some a, Some e)) (EditorWindow.window_id s)))).
Proof.
  intros Ha. unfold EditorWindow.delete_selection. rewrite Ha.
  pose proof (apply_request_cursor d
                (DeleteRequest (Z.min a e) (Z.max a e) (EditorWindow.cursor_pos s)
                   (Some (Some a, Some e)) (EditorWindow.window_id s))) as Hc.
  destruct (apply_request d _) as [d' [cur sel]]. simpl in Hc.
  inversion Hc; subst. reflexivity.
Qed.

Lemma handle_backspace_eq s d :
  EditorWindow.selection_end s = None ->
  0 < EditorWindow.cursor_pos s ->
  EditorWindow.handle_backspace s d =
    Done (EditorWindow.settle
            (EditorWindow.with_cursor s (EditorWindow.cursor_pos s - 1)),
          fst (apply_request d
                 (DeleteRequest (EditorWindow.cursor_pos s - 1) (EditorWindow.cursor_pos s)
                    (EditorWindow.cursor_pos s)
                    (Some (EditorWindow.selection_start s, None))
                    (EditorWindow.window_id s)))).
Proof.
  intros He Hp. unfold EditorWindow.handle_backspace. rewrite He.
  destruct (Z.ltb_spec 0 (EditorWindow.cursor_pos s)) as [_|H]; [|lia].
  pose proof (apply_request_cursor d
                (DeleteRequest (EditorWindow.cursor_pos s - 1) (EditorWindow.cursor_pos s)
                   (EditorWindow.cursor_pos s)
                   (Some (EditorWindow.selection_start s, None))
                   (EditorWindow.window_id s))) as Hc.
  destruct (apply_request d _) as [d' [cur sel]]. simpl in Hc.
  inversion Hc; subst. reflexivity.
Qed.

(** ** Typing over a selection *)

(** X11: with a selection whose ends lie within the buffer, [insert_text]
    replaces the selected text by the typed text, whichever end of the
    selection comes first: the buffer is what was before the selection, the
    text, and what was after it; the cursor stands after the text; the window
    has no selection and no goal column; the redo stack is empty. *)
Theorem insert_text_replaces_selection s d text a e pre mid post :
  EditorWindow.selection_start s = Some a ->
  EditorWindow.selection_end s = Some e ->
  content d = pre ++ mid ++ post ->
  Z.min a e = len pre ->
  Z.max a e = len pre + len mid ->
  exists s' d',
    EditorWindow.insert_text s d text = Done (s', d') /\
    content d' = pre ++ text ++ post /\
    EditorWindow.cursor_pos s' = len pre + len text /\
    EditorWindow.selection_start s' = None /\
    EditorWindow.selection_end s' = None /\
    EditorWindow.cursor_x_goal s' = None /\
    redo_stack d' = [].
Proof.
  intros Ha He Hc Hlo Hhi. unfold EditorWindow.insert_text.
  rewrite He, (delete_selection_eq s d a e Ha), type_text_eq.
  eexists. eexists. split; [reflexivity|]. view_simpl.
  rewrite apply_request_redo_stack. rewrite !apply_request_content.
  rewrite Hc, Hlo, Hhi.
  rewrite (slice_to_eq (pre ++ mid ++ post) pre (mid ++ post)) by slice_side.
  rewrite (slice_from_eq (pre ++ mid ++ post) (pre ++ mid) post) by slice_side.
  rewrite (slice_to_eq _ pre post), (slice_from_eq _ pre post) by slice_side.
  repeat split.
Qed.

Lemma insert_text_replaces_selection_witness :
  exists s' d',
    EditorWindow.insert_text
      (EditorWindow.mkState 0 1 (Some 4) (Some 1) None None None)
      (Document_init (Some (py "hello"))) (py "ipp") = Done (s', d') /\
    content d' = py "hippo" /\
    EditorWindow.cursor_pos s' = 4 /\
    EditorWindow.selection_start s' = None /\
    EditorWindow.selection_end s' = None /\
    EditorWindow.cursor_x_goal s' = None /\
    redo_stack d' = [].
Proof.
  apply (insert_text_replaces_selection
           (EditorWindow.mkState 0 1 (Some 4) (Some 1) None None None)
           (Document_init (Some (py "hello"))) (py "ipp") 4 1
           (py "h") (py "ell") (py "o")); reflexivity.
Defined.

(** ** Backspace *)

(** A run of Backspace presses over the text [run] before the cursor: the
    buffer and the cursor. *)
Lemma backspace_times_content run :
  forall s d pre post,
    EditorWindow.selection_end s = None ->
    content d = pre ++ run ++ post ->
    EditorWindow.cursor_pos s = len pre + len run ->
    exists s' d',
      backspace_times (length run) s d = Done (s', d') /\
      content d' = pre ++ post /\
      EditorWindow.cursor_pos s' = len pre /\
      EditorWindow.selection_end s' = None /\
      EditorWindow.window_id s' = EditorWindow.window_id s.
Proof.
  induction run as [|x run IH] using rev_ind; intros s d pre post He Hc Hp.
  - exists s, d. cbn [length backspace_times]. rewrite Hc.
    change (len (@nil ascii)) with 0 in Hp. repeat split; (lia || auto).
  - rewrite length_app, Nat.add_1_r. cbn [backspace_times].
    rewrite len_app in Hp. change (len [x]) with 1 in Hp.
    pose proof (len_nonneg pre). pose proof (len_nonneg run).
    rewrite handle_backspace_eq by (exact He || lia).
    destruct (IH (EditorWindow.settle
                    (EditorWindow.with_cursor s (EditorWindow.cursor_pos s - 1)))
                 (fst (apply_request d
                         (DeleteRequest (EditorWindow.cursor_pos s - 1)
                            (EditorWindow.cursor_pos s) (EditorWindow.cursor_pos s)
                            (Some (EditorWindow.selection_start s, None))
                            (EditorWindow.window_id s))))
                 pre post) as (s' & d' & E & Hc' & Hp' & He' & Hw').
    + reflexivity.
    + rewrite apply_request_content, Hc.
      rewrite (slice_to_eq _ (pre ++ run) ([x] ++ post)) by slice_side.
      rewrite (slice_from_eq _ (pre ++ run ++ [x]) post) by slice_side.
      rewrite <- app_assoc. reflexivity.
    + view_simpl. lia.
    + exists s', d'. auto.
Qed.

(** X12: without a selection and with the cursor within the buffer, typing
    a text and then pressing Backspace once for each of its characters gives
    the buffer and the cursor back. *)
Theorem typing_then_backspaces_returns s d text pre post :
  EditorWindow.selection_end s = None ->
  content d = pre ++ post ->
  EditorWindow.cursor_pos s = len pre ->
  exists s1 d1 s2 d2,
    EditorWindow.insert_text s d text = Done (s1, d1) /\
    content d1 = pre ++ text ++ post /\
    EditorWindow.cursor_pos s1 = len pre + len text /\
    backspace_times (length text) s1 d1 = Done (s2, d2) /\
    content d2 = content d /\
    EditorWindow.cursor_pos s2 = EditorWindow.cursor_pos s.
Proof.
  intros He Hc Hp. unfold EditorWindow.insert_text. rewrite He, type_text_eq.
  set (s1 := EditorWindow.settle _). set (d1 := fst (apply_request d _)).
  assert (Hc1 : content d1 = pre ++ text ++ post).
  { subst d1. rewrite apply_request_content, Hc, Hp.
    rewrite (slice_to_eq _ pre post), (slice_from_eq _ pre post) by slice_side.
    reflexivity. }
  assert (Hp1 : EditorWindow.cursor_pos s1 = len pre + len text)
    by (subst s1; view_simpl; lia).
  destruct (backspace_times_content text s1 d1 pre post eq_refl Hc1 Hp1)
    as (s2 & d2 & E & Hc2 & Hp2 & _).
  exists s1, d1, s2, d2. rewrite Hc, Hp.
  repeat split; (assumption || reflexivity).
Qed.

Lemma typing_then_backspaces_returns_witness :
  exists s1 d1 s2 d2,
    EditorWindow.insert_text (EditorWindow.with_cursor (EditorWindow.init 0) 1)
      (Document_init (Some (py "ab"))) (py "xyz") = Done (s1, d1) /\
    content d1 = py "axyzb" /\
    EditorWindow.cursor_pos s1 = 4 /\
    backspace_times 3 s1 d1 = Done (s2, d2) /\
    content d2 = py "ab" /\
    EditorWindow.cursor_pos s2 = 1.
Proof.
  apply (typing_then_backspaces_returns
           (EditorWindow.with_cursor (EditorWindow.init 0) 1)
           (Document_init (Some (py "ab"))) (py "xyz") (py "a") (py "b"));
    reflexivity.
Defined.

(** X13: a Shift-click on the anchor leaves a selection that is empty but
    set; Backspace then takes the selection branch: it deletes nothing, the
    buffer is as it was and the cursor stays, yet a delete command went
    through [execute_command] and the redo stack is empty. *)
Theorem backspace_on_empty_selection_deletes_nothing s d p :
  EditorWindow.shift_drag_anchor s = Some p ->
  0 <= p <= len (content d) ->
  EditorWindow.selection_end (EditorWindow.on_shift_click s p) = Some p /\
  exists s' d',
    EditorWindow.handle_backspace (EditorWindow.on_shift_click s p) d = Done (s', d') /\
    content d' = content d /\
    EditorWindow.cursor_pos s' = p /\
    redo_stack d' = [] /\
    (length (undo_stack d) <= length (undo_stack d'))%nat.
Proof.
  intros Ha Hp. unfold EditorWindow.on_shift_click. rewrite Ha.
  rewrite Z.min_id, Z.max_id. view_simpl. split; [reflexivity|].
  unfold EditorWindow.handle_backspace. view_simpl.
  rewrite (delete_selection_eq _ d p p) by reflexivity.
  rewrite Z.min_id, Z.max_id. view_simpl.
  eexists. eexists. split; [reflexivity|].
  destruct (cut_at (content d) p Hp) as (pre & post & Hc & Hpre).
  split; [|split; [reflexivity|split; [apply apply_request_redo_stack|]]].
  - rewrite apply_request_content, Hc.
    rewrite (slice_to_eq _ pre post), (slice_from_eq _ pre post) by slice_side.
    reflexivity.
  - unfold apply_request.
    destruct (execute_command_stack d
                (build_command (content d)
                   (DeleteRequest p p p (Some (Some p, Some p)) (EditorWindow.window_id s))))
      as [(cmd' & -> & _) | (rest & l & m & E & -> & _)].
    + rewrite length_app. simpl. lia.
    + rewrite E, !length_app. simpl. lia.
Qed.

Lemma backspace_on_empty_selection_deletes_nothing_witness :
  let s := EditorWindow.on_click (EditorWindow.init 0) 2 in
  EditorWindow.selection_end (EditorWindow.on_shift_click s 2) = Some 2 /\
  exists s' d',
    EditorWindow.handle_backspace (EditorWindow.on_shift_click s 2)
      (Document_init (Some (py "abc"))) = Done (s', d') /\
    content d' = py "abc" /\
    EditorWindow.cursor_pos s' = 2 /\
    redo_stack d' = [] /\
    (0 <= length (undo_stack d'))%nat.
Proof.
  apply (backspace_on_empty_selection_deletes_nothing
           (EditorWindow.on_click (EditorWindow.init 0) 2)
           (Document_init (Some (py "abc"))) 2).
  - reflexivity.
  - unfold len. simpl. lia.
Defined.

(** A run of Backspace presses below an entry of the same view that starts
    at the cursor: every press is merged into that entry. *)
Lemma backspace_times_merges run :
  forall s d pre post us lb lend ldel,
    run <> [] ->
    EditorWindow.selection_end s = None ->
    window_id lb = EditorWindow.window_id s ->
    content d = pre ++ run ++ post ->
    EditorWindow.cursor_pos s = len pre + len run ->
    undo_stack d = us ++ [DeleteCommand lb (EditorWindow.cursor_pos s) lend ldel] ->
    exists s' d',
      backspace_times (length run) s d = Done (s', d') /\
      content d' = pre ++ post /\
      EditorWindow.cursor_pos s' = len pre /\
      EditorWindow.window_id s' = EditorWindow.window_id s /\
      undo_stack d' =
        us ++ [DeleteCommand (set_after lb (len pre) None) (len pre) lend (run ++ ldel)].
Proof.
  induction run as [|x run IH] using rev_ind;
    intros s d pre post us lb lend ldel Hne He Hw Hc Hp Hs; [contradiction|].
  rewrite length_app, Nat.add_1_r. cbn [backspace_times].
  rewrite len_app in Hp. change (len [x]) with 1 in Hp.
  pose proof (len_nonneg pre). pose proof (len_nonneg run).
  rewrite handle_backspace_eq by (exact He || lia).
  set (s1 := EditorWindow.settle _).
  set (d1 := fst (apply_request d _)).
  assert (Hdel : slice (content d) (EditorWindow.cursor_pos s - 1)
                   (EditorWindow.cursor_pos s) = [x]).
  { rewrite Hc. apply (slice_eq _ (pre ++ run) [x] post); slice_side. }
  assert (Ed1 : d1 =
                mkDocument (pre ++ run ++ post)
                  (us ++ [DeleteCommand (set_after lb (EditorWindow.cursor_pos s - 1) None)
                            (EditorWindow.cursor_pos s - 1) lend ([x] ++ ldel)])
                  [] (last_command_type d)).
  { subst d1. unfold apply_request. cbn [build_command].
    unfold DeleteCommand_init, Command_init.
    rewrite (execute_command_backspace_merge d us lb (EditorWindow.cursor_pos s) lend ldel)
      by first [assumption | reflexivity | exact (eq_sym Hw)].
    cbn [fst]. rewrite Hdel, Hc.
    rewrite (slice_to_eq _ (pre ++ run) ([x] ++ post)) by slice_side.
    rewrite (slice_from_eq _ (pre ++ run ++ [x]) post) by slice_side.
    rewrite <- app_assoc. reflexivity. }
  destruct run as [|y run'] eqn:Erun.
  - (* the last press of the run *)
    exists s1, d1. cbn [length backspace_times]. rewrite Ed1.
    change (len (@nil ascii)) with 0 in Hp.
    replace (EditorWindow.cursor_pos s - 1) with (len pre) by lia.
    subst s1. view_simpl. repeat split. lia.
  - rewrite <- Erun in *.
    destruct (IH s1 d1 pre post us
                (set_after lb (EditorWindow.cursor_pos s - 1) None) lend ([x] ++ ldel))
      as (s' & d' & E & Hc' & Hp' & Hw' & Hs').
    + rewrite Erun. discriminate.
    + reflexivity.
    + exact Hw.
    + rewrite Ed1. reflexivity.
    + subst s1. view_simpl. lia.
    + rewrite Ed1. subst s1. view_simpl. reflexivity.
    + exists s', d'. rewrite E, Hs', <- app_assoc.
      subst s1. view_simpl. auto.
Qed.

(** X14: without a selection, a run of Backspace presses over the text
    before the cursor, the first of which starts a new undo entry, leaves one
    entry for the whole run: its range spans the run and its [deleted_text] is
    the run in buffer order.  One [undo] from that window gives back the
    buffer, the undo stack and the cursor of before the run. *)
Theorem backspace_run_is_one_undo_step s d pre run post :
  run <> [] ->
  EditorWindow.selection_end s = None ->
  content d = pre ++ run ++ post ->
  EditorWindow.cursor_pos s = len pre + len run ->
  can_group_with_last d
    (DeleteCommand_init (content d) (EditorWindow.cursor_pos s - 1)
       (EditorWindow.cursor_pos s) (EditorWindow.cursor_pos s)
       (Some (EditorWindow.selection_start s, None)) (EditorWindow.window_id s)) = false ->
  exists s' d',
    backspace_times (length run) s d = Done (s', d') /\
    content d' = pre ++ post /\
    EditorWindow.cursor_pos s' = len pre /\
    undo_stack d' =
      undo_stack d ++
      [DeleteCommand
         (mkBase (EditorWindow.cursor_pos s)
            (Some (EditorWindow.selection_start s, None))
            (EditorWindow.window_id s) (Some (len pre)) None)
         (len pre) (EditorWindow.cursor_pos s) run] /\
    content (snd (EditorWindow.undo s' d')) = content d /\
    undo_stack (snd (EditorWindow.undo s' d')) = undo_stack d /\
    EditorWindow.cursor_pos (fst (EditorWindow.undo s' d')) = EditorWindow.cursor_pos s /\
    EditorWindow.selection_end (fst (EditorWindow.undo s' d')) = None.
Proof.
  intros Hne He Hc Hp Hg.
  destruct (exists_last Hne) as (run' & x & ->).
  rewrite len_app in Hp. change (len [x]) with 1 in Hp.
  pose proof (len_nonneg pre). pose proof (len_nonneg run').
  set (cur := EditorWindow.cursor_pos s) in *.
  set (b := mkBase cur (Some (EditorWindow.selection_start s, None))
              (EditorWindow.window_id s) (Some (len pre)) None).
  (* the run *)
  assert (Hrun : exists s' d',
             backspace_times (length (run' ++ [x])) s d = Done (s', d') /\
             content d' = pre ++ post /\
             EditorWindow.cursor_pos s' = len pre /\
             EditorWindow.window_id s' = EditorWindow.window_id s /\
             undo_stack d' =
               undo_stack d ++ [DeleteCommand b (len pre) cur (run' ++ [x])]).
  { rewrite length_app, Nat.add_1_r. cbn [backspace_times].
    rewrite handle_backspace_eq by (exact He || (fold cur; lia)). fold cur.
    set (s1 := EditorWindow.settle _).
    set (d1 := fst (apply_request d _)).
    assert (Hdel : slice (content d) (cur - 1) cur = [x]).
    { rewrite Hc. apply (slice_eq _ (pre ++ run') [x] post); slice_side. }
    assert (Ec1 : content d1 = pre ++ run' ++ post).
    { subst d1. rewrite apply_request_content, Hc.
      rewrite (slice_to_eq _ (pre ++ run') ([x] ++ post)) by slice_side.
      rewrite (slice_from_eq _ (pre ++ run' ++ [x]) post) by slice_side.
      rewrite <- app_assoc. reflexivity. }
    assert (Es1 : undo_stack d1 =
                  undo_stack d ++
                  [DeleteCommand
                     (set_after (Command_init cur (Some (EditorWindow.selection_start s, None))
                                   (EditorWindow.window_id s)) (cur - 1) None)
                     (cur - 1) cur [x]]).
    { subst d1. rewrite apply_request_push by exact Hg.
      cbn [build_command DeleteCommand_init execute fst]. rewrite Hdel. reflexivity. }
    destruct run' as [|y run''] eqn:Erun.
    - exists s1, d1. cbn [length backspace_times].
      change (len (@nil ascii)) with 0 in Hp.
      rewrite Ec1, Es1. replace (cur - 1) with (len pre) by lia.
      subst s1. view_simpl. repeat split. lia.
    - rewrite <- Erun in *.
      destruct (backspace_times_merges run' s1 d1 pre post (undo_stack d)
                  (set_after (Command_init cur (Some (EditorWindow.selection_start s, None))
                                (EditorWindow.window_id s)) (cur - 1) None)
                  cur [x])
        as (s' & d' & E & Hc' & Hp' & Hw' & Hs').
      + rewrite Erun. discriminate.
      + reflexivity.
      + reflexivity.
      + exact Ec1.
      + subst s1. view_simpl. lia.
      + rewrite Es1. subst s1. view_simpl. reflexivity.
      + exists s', d'. rewrite E, Hs'. subst s1. view_simpl. auto. }
  destruct Hrun as (s' & d' & E & Hc' & Hp' & Hw' & Hs').
  exists s', d'. split; [exact E|]. split; [exact Hc'|]. split; [exact Hp'|].
  split; [exact Hs'|].
  unfold EditorWindow.undo. rewrite (undo_snoc _ _ _ _ Hs').
  cbn [undo_command base cursor_before selection_before window_id b
    EditorWindow.take_result fst snd content undo_stack].
  rewrite Hw', Z.eqb_refl. view_simpl. rewrite Hc', Hc.
  rewrite (slice_to_eq _ pre post), (slice_from_eq _ pre post) by slice_side.
  repeat split.
Qed.

Lemma backspace_run_is_one_undo_step_witness :
  exists s' d',
    backspace_times 3 (EditorWindow.with_cursor (EditorWindow.init 0) 4)
      (Document_init (Some (py "hello"))) = Done (s', d') /\
    content d' = py "ho" /\
    EditorWindow.cursor_pos s' = 1 /\
    undo_stack d' = [DeleteCommand (mkBase 4 (Some (None, None)) 0 (Some 1) None) 1 4 (py "ell")] /\
    content (snd (EditorWindow.undo s' d')) = py "hello" /\
    undo_stack (snd (EditorWindow.undo s' d')) = [] /\
    EditorWindow.cursor_pos (fst (EditorWindow.undo s' d')) = 4 /\
    EditorWindow.selection_end (fst (EditorWindow.undo s' d')) = None.
Proof.
  apply (backspace_run_is_one_undo_step
           (EditorWindow.with_cursor (EditorWindow.init 0) 4)
           (Document_init (Some (py "hello"))) (py "h") (py "ell") (py "o"));
    try reflexivity.
  discriminate.
Defined.

(** ** Undo from a window *)

(** X15: a window types at the end of the buffer, the typing starting a new
    undo entry; another window then calls [undo].  The buffer is the one of
    before the typing, the window that called is unchanged, and the cursor
    of the window that typed, which nothing updates, lies past the end of the
    buffer. *)
Theorem undo_from_another_window_strands_cursor sA sB d text :
  EditorWindow.selection_end sA = None ->
  EditorWindow.cursor_pos sA = len (content d) ->
  text <> [] ->
  EditorWindow.window_id sA <> EditorWindow.window_id sB ->
  can_group_with_last d
    (InsertCommand_init text (EditorWindow.cursor_pos sA) (EditorWindow.cursor_pos sA)
       (Some (EditorWindow.selection_start sA, None)) (EditorWindow.window_id sA)) = false ->
  exists sA' d1,
    EditorWindow.insert_text sA d text = Done (sA', d1) /\
    cursor_in_buffer sA' (content d1) /\
    EditorWindow.undo sB d1 =
      (sB, mkDocument (content d) (undo_stack d)
             [InsertCommand
                (mkBase (EditorWindow.cursor_pos sA)
                   (Some (EditorWindow.selection_start sA, None))
                   (EditorWindow.window_id sA)
                   (Some (EditorWindow.cursor_pos sA + len text)) None)
                text (EditorWindow.cursor_pos sA)]
             (Some InsertCommandT)) /\
    len (content d) < EditorWindow.cursor_pos sA'.
Proof.
  intros He Hp Hne Hw Hg. unfold EditorWindow.insert_text.
  rewrite He, type_text_eq. rewrite He in *.
  set (r := InsertRequest text _ _ _ _).
  assert (Hlen : 0 < len text).
  { destruct text; [contradiction|]. rewrite len_cons.
    pose proof (len_nonneg text). lia. }
  assert (Ec1 : content (fst (apply_request d r)) = content d ++ text).
  { subst r. rewrite apply_request_content.
    rewrite slice_to_beyond, slice_from_beyond by lia. rewrite app_nil_r. reflexivity. }
  assert (Ed1 : fst (apply_request d r) =
                mkDocument (content d ++ text)
                  (undo_stack d ++
                   [InsertCommand
                      (mkBase (EditorWindow.cursor_pos sA)
                         (Some (EditorWindow.selection_start sA, None))
                         (EditorWindow.window_id sA)
                         (Some (EditorWindow.cursor_pos sA + len text)) None)
                      text (EditorWindow.cursor_pos sA)])
                  [] (Some InsertCommandT)).
  { rewrite <- Ec1. subst r. unfold apply_request at 1.
    cbn [build_command]. rewrite (execute_command_push _ _ Hg).
    unfold push_command, InsertCommand_init, Command_init.
    rewrite apply_request_content. reflexivity. }
  eexists. eexists. split; [reflexivity|]. split; [|split].
  - unfold cursor_in_buffer. view_simpl. rewrite Ec1, len_app.
    pose proof (len_nonneg (content d)). lia.
  - unfold EditorWindow.undo. rewrite Ed1.
    erewrite undo_snoc by reflexivity.
    cbn [EditorWindow.take_result base window_id content undo_stack redo_stack
      last_command_type undo_command fst].
    destruct (Z.eqb_spec (EditorWindow.window_id sA) (EditorWindow.window_id sB));
      [contradiction|].
    rewrite Hp.
    rewrite (slice_to_eq _ (content d) text) by reflexivity.
    rewrite slice_from_beyond by (rewrite len_app; lia).
    rewrite app_nil_r. reflexivity.
  - view_simpl. lia.
Qed.

Lemma undo_from_another_window_strands_cursor_witness :
  exists sA' d1,
    EditorWindow.insert_text (EditorWindow.with_cursor (EditorWindow.init 0) 2)
      (Document_init (Some (py "ab"))) (py "cd") = Done (sA', d1) /\
    cursor_in_buffer sA' (content d1) /\
    EditorWindow.undo (EditorWindow.init 1) d1 =
      (EditorWindow.init 1,
       mkDocument (py "ab") []
         [InsertCommand (mkBase 2 (Some (None, None)) 0 (Some 4) None) (py "cd") 2]
         (Some InsertCommandT)) /\
    2 < EditorWindow.cursor_pos sA'.
Proof.
  apply (undo_from_another_window_strands_cursor
           (EditorWindow.with_cursor (EditorWindow.init 0) 2) (EditorWindow.init 1)
           (Document_init (Some (py "ab"))) (py "cd")); try reflexivity;
    discriminate.
Defined.

(** X16: a window types over a selection whose deletion starts a new undo
    entry.  The typing leaves two entries, the deletion and the insertion.
    One [undo] from that window takes back the insertion only: the selected
    text is still gone and the window has no selection.  A second [undo]
    gives back the buffer, the undo stack, the cursor and the selection of
    before the typing. *)
Theorem typing_over_selection_takes_two_undos s d text a e pre mid post :
  EditorWindow.selection_start s = Some a ->
  EditorWindow.selection_end s = Some e ->
  content d = pre ++ mid ++ post ->
  Z.min a e = len pre ->
  Z.max a e = len pre + len mid ->
  can_group_with_last d
    (DeleteCommand_init (content d) (Z.min a e) (Z.max a e) (EditorWindow.cursor_pos s)
       (Some (Some a, Some e)) (EditorWindow.window_id s)) = false ->
  exists s1 d1,
    EditorWindow.insert_text s d text = Done (s1, d1) /\
    length (undo_stack d1) = S (S (length (undo_stack d))) /\
    let '(s2, d2) := EditorWindow.undo s1 d1 in
    let '(s3, d3) := EditorWindow.undo s2 d2 in
    content d2 = pre ++ post /\
    EditorWindow.cursor_pos s2 = len pre /\
    EditorWindow.selection_start s2 = None /\
    EditorWindow.selection_end s2 = None /\
    content d3 = content d /\
    undo_stack d3 = undo_stack d /\
    EditorWindow.cursor_pos s3 = EditorWindow.cursor_pos s /\
    EditorWindow.selection_start s3 = Some a /\
    EditorWindow.selection_end s3 = Some e.
Proof.
  intros Ha He Hc Hlo Hhi Hg. unfold EditorWindow.insert_text.
  rewrite He, (delete_selection_eq s d a e Ha), type_text_eq. view_simpl.
  set (rd := DeleteRequest _ _ _ _ _).
  set (dd := fst (apply_request d rd)).
  set (ri := InsertRequest _ _ _ _ _).
  set (cd := DeleteCommand
               (mkBase (EditorWindow.cursor_pos s) (Some (Some a, Some e))
                  (EditorWindow.window_id s) (Some (len pre)) None)
               (len pre) (len pre + len mid) mid).
  set (ci := InsertCommand
               (mkBase (len pre) (Some (None, None)) (EditorWindow.window_id s)
                  (Some (len pre + len text)) None)
               text (len pre)).
  assert (Edd : dd = mkDocument (pre ++ post) (undo_stack d ++ [cd]) []
                       (Some DeleteCommandT)).
  { subst dd rd. unfold apply_request. cbn [build_command].
    rewrite (execute_command_push _ _ Hg).
    unfold push_command, DeleteCommand_init, Command_init.
    cbn [execute fst snd type_of]. rewrite Hc, Hlo, Hhi.
    rewrite (slice_eq _ pre mid post) by slice_side.
    rewrite (slice_to_eq _ pre (mid ++ post)) by slice_side.
    rewrite (slice_from_eq _ (pre ++ mid) post) by slice_side.
    reflexivity. }
  assert (Ed1 : fst (apply_request dd ri) =
                mkDocument (pre ++ text ++ post) (undo_stack d ++ [cd; ci]) []
                  (Some InsertCommandT)).
  { subst ri. unfold apply_request. cbn [build_command].
    rewrite execute_command_push.
    - rewrite Edd. unfold push_command, InsertCommand_init, Command_init.
      cbn [execute fst snd type_of content undo_stack]. rewrite Hlo.
      rewrite (slice_to_eq _ pre post), (slice_from_eq _ pre post) by slice_side.
      rewrite <- app_assoc. reflexivity.
    - rewrite Edd. unfold can_group_with_last. cbn [undo_stack].
      rewrite pop_snoc. reflexivity. }
  eexists. eexists. split; [reflexivity|]. rewrite Ed1. split.
  - cbn [undo_stack]. rewrite length_app. simpl. lia.
  - unfold EditorWindow.undo at 1.
    rewrite (undo_snoc _ _ (undo_stack d ++ [cd]) ci)
      by (cbn [undo_stack]; rewrite <- app_assoc; reflexivity).
    cbn [EditorWindow.take_result base ci window_id cursor_before selection_before
      content undo_stack redo_stack last_command_type undo_command fst snd].
    view_simpl. rewrite Z.eqb_refl. view_simpl.
    unfold EditorWindow.undo.
    rewrite (undo_snoc _ _ (undo_stack d) cd) by reflexivity.
    cbn [EditorWindow.take_result base cd window_id cursor_before selection_before
      content undo_stack redo_stack last_command_type undo_command fst snd].
    view_simpl. rewrite Z.eqb_refl. view_simpl.
    rewrite (slice_to_eq _ pre (text ++ post)) by slice_side.
    rewrite (slice_from_eq _ (pre ++ text) post) by slice_side.
    rewrite (slice_to_eq _ pre post), (slice_from_eq _ pre post) by slice_side.
    rewrite Hc. repeat split.
Qed.

Lemma typing_over_selection_takes_two_undos_witness :
  exists s1 d1,
    EditorWindow.insert_text
      (EditorWindow.mkState 0 4 (Some 1) (Some 4) None None None)
      (Document_init (Some (py "hello"))) (py "ipp") = Done (s1, d1) /\
    length (undo_stack d1) = 2%nat /\
    let '(s2, d2) := EditorWindow.undo s1 d1 in
    let '(s3, d3) := EditorWindow.undo s2 d2 in
    content d2 = py "ho" /\
    EditorWindow.cursor_pos s2 = 1 /\
    EditorWindow.selection_start s2 = None /\
    EditorWindow.selection_end s2 = None /\
    content d3 = py "hello" /\
    undo_stack d3 = [] /\
    EditorWindow.cursor_pos s3 = 4 /\
    EditorWindow.selection_start s3 = Some 1 /\
    EditorWindow.selection_end s3 = Some 4.
Proof.
  apply (typing_over_selection_takes_two_undos
           (EditorWindow.mkState 0 4 (Some 1) (Some 4) None None None)
           (Document_init (Some (py "hello"))) (py "ipp") 1 4
           (py "h") (py "ell") (py "o")); reflexivity.
Defined.

(** X17: a window types without a selection, the typing starting a new undo
    entry; [undo] from that window gives back the buffer, the undo stack, the
    cursor and the selection fields of before the typing, and [redo] from
    that window then gives the buffer of after the typing, the cursor after
    the typed text and no selection. *)
Theorem typing_undo_redo_in_one_window s d text pre post :
  EditorWindow.selection_end s = None ->
  content d = pre ++ post ->
  EditorWindow.cursor_pos s = len pre ->
  can_group_with_last d
    (InsertCommand_init text (EditorWindow.cursor_pos s) (EditorWindow.cursor_pos s)
       (Some (EditorWindow.selection_start s, None)) (EditorWindow.window_id s)) = false ->
  exists s1 d1,
    EditorWindow.insert_text s d text = Done (s1, d1) /\
    let '(s2, d2) := EditorWindow.undo s1 d1 in
    let '(s3, d3) := EditorWindow.redo s2 d2 in
    content d2 = content d /\
    undo_stack d2 = undo_stack d /\
    EditorWindow.cursor_pos s2 = EditorWindow.cursor_pos s /\
    EditorWindow.selection_start s2 = EditorWindow.selection_start s /\
    EditorWindow.selection_end s2 = None /\
    d3 = d1 /\
    EditorWindow.cursor_pos s3 = len pre + len text /\
    EditorWindow.selection_start s3 = None /\
    EditorWindow.selection_end s3 = None.
Proof.
  intros He Hc Hp Hg. unfold EditorWindow.insert_text.
  rewrite He, type_text_eq. rewrite He in *.
  set (ci := InsertCommand
               (mkBase (len pre) (Some (EditorWindow.selection_start s, None))
                  (EditorWindow.window_id s) (Some (len pre + len text)) None)
               text (len pre)).
  assert (Ed1 : fst (apply_request d
                       (InsertRequest text (EditorWindow.cursor_pos s)
                          (EditorWindow.cursor_pos s)
                          (Some (EditorWindow.selection_start s, None))
                          (EditorWindow.window_id s))) =
                mkDocument (pre ++ text ++ post) (undo_stack d ++ [ci]) []
                  (Some InsertCommandT)).
  { unfold apply_request. cbn [build_command].
    rewrite (execute_command_push _ _ Hg).
    unfold push_command, InsertCommand_init, Command_init.
    cbn [execute fst snd type_of]. rewrite Hc, Hp.
    rewrite (slice_to_eq _ pre post), (slice_from_eq _ pre post) by slice_side.
    reflexivity. }
  eexists. eexists. split; [reflexivity|]. rewrite Ed1.
  unfold EditorWindow.undo.
  rewrite (undo_snoc _ _ (undo_stack d) ci) by reflexivity.
  cbn [EditorWindow.take_result base ci window_id cursor_before selection_before
    content undo_stack redo_stack last_command_type undo_command fst snd].
  view_simpl. rewrite Z.eqb_refl. view_simpl.
  unfold EditorWindow.redo.
  rewrite (redo_snoc _ _ [] ci) by reflexivity.
  cbn [EditorWindow.take_result base ci window_id cursor_before selection_before
    content undo_stack redo_stack last_command_type execute set_after fst snd].
  view_simpl. rewrite Z.eqb_refl. view_simpl.
  rewrite (slice_to_eq _ pre (text ++ post)) by slice_side.
  rewrite (slice_from_eq _ (pre ++ text) post) by slice_side.
  rewrite (slice_to_eq _ pre post), (slice_from_eq _ pre post) by slice_side.
  rewrite Hc, Hp. repeat split.
Qed.

Lemma typing_undo_redo_in_one_window_witness :
  exists s1 d1,
    EditorWindow.insert_text (EditorWindow.on_click (EditorWindow.init 0) 1)
      (Document_init (Some (py "ab"))) (py "X") = Done (s1, d1) /\
    let '(s2, d2) := EditorWindow.undo s1 d1 in
    let '(s3, d3) := EditorWindow.redo s2 d2 in
    content d2 = py "ab" /\
    undo_stack d2 = [] /\
    EditorWindow.cursor_pos s2 = 1 /\
    EditorWindow.selection_start s2 = Some 1 /\
    EditorWindow.selection_end s2 = None /\
    d3 = d1 /\
    EditorWindow.cursor_pos s3 = 2 /\
    EditorWindow.selection_start s3 = None /\
    EditorWindow.selection_end s3 = None.
Proof.
  apply (typing_undo_redo_in_one_window
           (EditorWindow.on_click (EditorWindow.init 0) 1)
           (Document_init (Some (py "ab"))) (py "X") (py "a") (py "b"));
    reflexivity.
Defined.

(** * Properties of the registry of windows *)

Lemma same_window_refl w : same_window w w = true.
Proof. apply Nat.eqb_refl. Qed.

Lemma existsb_same_window ws w :
  In w ws -> existsb (fun x => same_window x w) ws = true.
Proof.
  intros H. apply existsb_exists. exists w. split; [exact H | apply same_window_refl].
Qed.

Lemma remove_first_length ws w :
  existsb (fun x => same_window x w) ws = true ->
  S (length (remove_first w ws)) = length ws.
Proof.
  induction ws as [|x ws IH]; simpl; [discriminate|].
  destruct (same_window x w); simpl; [reflexivity|].
  intros H. rewrite IH by exact H. reflexivity.
Qed.

Lemma remove_first_keeps ws w v :
  In v ws -> obj v <> obj w -> In v (remove_first w ws).
Proof.
  intros Hin Hne. induction ws as [|x ws IH]; simpl in *; [contradiction|].
  destruct (same_window x w) eqn:E.
  - destruct Hin as [-> | Hin]; [|exact Hin].
    unfold same_window in E. apply Nat.eqb_eq in E. contradiction.
  - destruct Hin as [-> | Hin]; [left; reflexivity | right; apply IH, Hin].
Qed.

Lemma remove_first_absent ws w :
  (forall x, In x ws -> obj x <> obj w) -> remove_first w ws = ws.
Proof.
  induction ws as [|x ws IH]; intros H; simpl; [reflexivity|].
  destruct (same_window x w) eqn:E.
  - unfold same_window in E. apply Nat.eqb_eq in E.
    exfalso. apply (H x); [left; reflexivity | exact E].
  - f_equal. apply IH. intros y Hy. apply H. right. exact Hy.
Qed.

Lemma remove_first_snoc ws w :
  (forall x, In x ws -> obj x <> obj w) -> remove_first w (ws ++ [w]) = ws.
Proof.
  induction ws as [|x ws IH]; intros H; simpl.
  - rewrite same_window_refl. reflexivity.
  - destruct (same_window x w) eqn:E.
    + unfold same_window in E. apply Nat.eqb_eq in E.
      exfalso. apply (H x); [left; reflexivity | exact E].
    + f_equal. apply IH. intros y Hy. apply H. right. exact Hy.
Qed.

(** X18: unregistering a window that was just registered, and that was not
    registered before, gives the registry back; unregistering a window that
    is not registered changes nothing; and closing a registered window quits
    the application exactly when it is the only window of the registry. *)
Theorem register_then_unregister ws w :
  ((forall x, In x ws -> obj x <> obj w) ->
   unregister_window (register_window ws w) w = ws /\
   unregister_window ws w = ws) /\
  (In w ws -> (snd (on_close ws w) = Quit <-> ws = [w])).
Proof.
  split.
  - intros H. unfold unregister_window, register_window. split.
    + rewrite existsb_same_window by (apply in_or_app; right; left; reflexivity).
      apply remove_first_snoc, H.
    + destruct (existsb _ ws); [apply remove_first_absent, H | reflexivity].
  - intros Hin. unfold on_close, unregister_window. cbn [snd].
    pose proof (existsb_same_window ws w Hin) as He. rewrite He.
    pose proof (remove_first_length ws w He) as Hl.
    split.
    + intros HQ. destruct (remove_first w ws) eqn:E; [|discriminate].
      destruct ws as [|x [|y ws]]; simpl in Hl; try lia.
      destruct Hin as [-> | []]. reflexivity.
    + intros ->. simpl. rewrite same_window_refl. reflexivity.
Qed.

Lemma register_then_unregister_witness :
  unregister_window (register_window [mkWindow 10 0] (mkWindow 11 1)) (mkWindow 11 1) =
    [mkWindow 10 0] /\
  (snd (on_close [mkWindow 10 0] (mkWindow 10 0)) = Quit <->
   [mkWindow 10 0] = [mkWindow 10 0]).
Proof.
  split.
  - apply (proj1 (register_then_unregister [mkWindow 10 0] (mkWindow 11 1))).
    intros x [<- | []]. simpl. lia.
  - apply (proj2 (register_then_unregister [mkWindow 10 0] (mkWindow 10 0))).
    left. reflexivity.
Defined.

(** X19: the ids of the windows.  As long as windows are only opened, the id
    of each window is its position in the registry, so no two windows share
    an id.  Once a window other than the last one is closed, the next window
    that is opened takes the id [len(windows)], which the last window
    already has: two windows of the registry share a [window_id]. *)
Theorem window_id_reused_after_close ws o :
  map win_id ws = map Z.of_nat (seq 0 (length ws)) ->
  ~ In o (map obj ws) ->
  map win_id (open_new_window ws o) =
    map Z.of_nat (seq 0 (length (open_new_window ws o))) /\
  forall i w,
    NoDup (map obj ws) ->
    (S i < length ws)%nat ->
    w = nth i ws w ->
    exists x y,
      In x (open_new_window (fst (on_close ws w)) o) /\
      In y (open_new_window (fst (on_close ws w)) o) /\
      obj x <> obj y /\
      win_id x = win_id y.
Proof.
  intros Hids Ho. split.
  - unfold open_new_window, register_window.
    rewrite length_app, map_app, Nat.add_1_r, seq_S, map_app, Hids.
    reflexivity.
  - intros i w Hnd Hi Hw.
    set (n := length ws) in *.
    set (v := nth (n - 1) ws w).
    assert (Hinw : In w ws) by (rewrite Hw; apply nth_In; lia).
    assert (Hinv : In v ws) by (apply nth_In; lia).
    assert (Hidv : win_id v = Z.of_nat (n - 1)).
    { subst v. rewrite <- (map_nth win_id), Hids.
      rewrite (nth_indep _ _ (Z.of_nat 0)) by (rewrite length_map, length_seq; lia).
      rewrite map_nth, seq_nth by lia. reflexivity. }
    assert (Hobj : obj v <> obj w).
    { intros E.
      assert (Hij : (n - 1)%nat = i).
      { apply (proj1 (NoDup_nth (map obj ws) (obj w)) Hnd);
          try (rewrite length_map; lia).
        rewrite !map_nth. fold v. rewrite <- Hw. exact E. }
      lia. }
    pose proof (existsb_same_window ws w Hinw) as He.
    pose proof (remove_first_length ws w He) as Hl.
    unfold on_close, unregister_window. cbn [fst]. rewrite He.
    unfold open_new_window, register_window.
    exists v, (mkWindow o (len (remove_first w ws))).
    split; [apply in_or_app; left; apply remove_first_keeps; assumption|].
    split; [apply in_or_app; right; left; reflexivity|].
    split.
    + cbn [obj]. intros E. apply Ho. rewrite <- E. apply in_map, Hinv.
    + cbn [win_id]. rewrite Hidv. unfold len. f_equal. lia.
Qed.

Lemma window_id_reused_after_close_witness :
  let ws := [mkWindow 10 0; mkWindow 11 1] in
  exists x y,
    In x (open_new_window (fst (on_close ws (mkWindow 10 0))) 12) /\
    In y (open_new_window (fst (on_close ws (mkWindow 10 0))) 12) /\
    obj x <> obj y /\
    win_id x = win_id y.
Proof.
  assert (Hno : ~ In 12%nat (map obj [mkWindow 10 0; mkWindow 11 1])).
  { simpl. intros [H | [H | []]]; discriminate. }
  apply (proj2 (window_id_reused_after_close [mkWindow 10 0; mkWindow 11 1] 12
                  eq_refl Hno) 0%nat (mkWindow 10 0)).
  - simpl. constructor; [|constructor; [|constructor]].
    + simpl. intros [H | []]. discriminate.
    + simpl. intros [].
  - simpl. lia.
  - reflexivity.
Defined.

(** * Loading a file *)






(** * Moving up and down *)

(** X21: with the cursor within the buffer and a goal column that is a
    column, the Up key and the Down key keep or set the goal column (to the
    column of the cursor when there was none) and, when the buffer has the
    row above, respectively below, put the cursor in that row at the goal
    column clamped to the length of the row; otherwise the cursor stays. *)
Theorem vertical_move_lands_in_the_next_row s c key :
  cursor_in_buffer s c ->
  goal_is_column s ->
  key = Up \/ key = Down ->
  let row := fst (get_position_from_index c (EditorWindow.cursor_pos s)) in
  let col := snd (get_position_from_index c (EditorWindow.cursor_pos s)) in
  let goal := match EditorWindow.cursor_x_goal s with None => col | Some g => g end in
  let row' := match key with Up => row - 1 | _ => row + 1 end in
  exists s',
    EditorWindow.handle_arrow_key s c key = Done s' /\
    EditorWindow.cursor_x_goal s' = Some goal /\
    (1 <= row' <= len (split newline c) ->
     get_position_from_index c (EditorWindow.cursor_pos s') =
       (row', Z.min goal (len (nth (Z.to_nat (row' - 1)) (split newline c) [])))) /\
    (~ 1 <= row' <= len (split newline c) ->
     EditorWindow.cursor_pos s' = EditorWindow.cursor_pos s).
Proof.
  intros Hc Hg Hkey. unfold cursor_in_buffer, goal_is_column in *.
  destruct (position_of_offset c (EditorWindow.cursor_pos s) Hc)
    as (k & Hk & Hpos & Hcol).
  rewrite Hpos. cbn [fst snd]. cbv zeta.
  rewrite (vertical_move s c key k _ Hkey Hpos).
  set (lines := split newline c) in *.
  set (goal := match EditorWindow.cursor_x_goal s with
               | None => _ | Some g => g end).
  assert (Hgoal : 0 <= goal)
    by (subst goal; destruct (EditorWindow.cursor_x_goal s); lia).
  set (target := match key with Up => Z.of_nat k - 1 | _ => Z.of_nat k + 1 end).
  assert (Et : match key with Up => Z.of_nat k + 1 - 1 | _ => Z.of_nat k + 1 + 1 end
               = target + 1)
    by (subst target; destruct Hkey as [-> | ->]; lia).
  rewrite Et. replace (target + 1 - 1) with target by lia.
  eexists. split; [reflexivity|].
  destruct (Z.leb_spec 0 target) as [H0|H0];
    [|cbn [andb]; view_simpl; split; [reflexivity|]; split; [lia | reflexivity]].
  destruct (Z.ltb_spec target (len lines)) as [H1|H1];
    [|cbn [andb]; view_simpl; split; [reflexivity|]; split; [lia | reflexivity]].
  cbn [andb]. view_simpl. split; [reflexivity|]. split; [|lia].
  intros _.
  assert (Ht : (Z.to_nat target < length lines)%nat) by (unfold len in H1; lia).
  pose proof (len_nonneg (nth (Z.to_nat target) lines [])).
  unfold get_position_from_index. fold lines.
  rewrite (position_loop_at lines (Z.to_nat target) 0 0) by (try exact Ht; lia).
  f_equal; lia.
Qed.

Lemma vertical_move_lands_in_the_next_row_witness :
  exists s',
    EditorWindow.handle_arrow_key (EditorWindow.with_cursor (EditorWindow.init 0) 7)
      (py "ab" ++ newline :: py "cdefg") Up = Done s' /\
    EditorWindow.cursor_x_goal s' = Some 4 /\
    (1 <= 1 <= 2 ->
     get_position_from_index (py "ab" ++ newline :: py "cdefg")
       (EditorWindow.cursor_pos s') = (1, 2)) /\
    (~ 1 <= 1 <= 2 -> EditorWindow.cursor_pos s' = 7).
Proof.
  apply (vertical_move_lands_in_the_next_row
           (EditorWindow.with_cursor (EditorWindow.init 0) 7)
           (py "ab" ++ newline :: py "cdefg") Up).
  - unfold cursor_in_buffer, len. simpl. lia.
  - exact I.
  - left. reflexivity.
Defined.

(** * The Delete key and the clipboard *)

Lemma handle_delete_eq s d :
  EditorWindow.selection_end s = None ->
  EditorWindow.cursor_pos s < len (content d) ->
  EditorWindow.handle_delete s d =
    Done (EditorWindow.settle (EditorWindow.with_cursor s (EditorWindow.cursor_pos s)),
          fst (apply_request d
                 (DeleteRequest (EditorWindow.cursor_pos s) (EditorWindow.cursor_pos s + 1)
                    (EditorWindow.cursor_pos s)
                    (Some (EditorWindow.selection_start s, None))
                    (EditorWindow.window_id s)))).
Proof.
  intros He Hp. unfold EditorWindow.handle_delete. rewrite He.
  destruct (Z.ltb_spec (EditorWindow.cursor_pos s) (len (content d))) as [_|H]; [|lia].
  pose proof (apply_request_cursor d
                (DeleteRequest (EditorWindow.cursor_pos s) (EditorWindow.cursor_pos s + 1)
                   (EditorWindow.cursor_pos s)
                   (Some (EditorWindow.selection_start s, None))
                   (EditorWindow.window_id s))) as Hc.
  destruct (apply_request d _) as [d' [cur sel]]. simpl in Hc.
  inversion Hc; subst. reflexivity.
Qed.

(** X22: without a selection and with the cursor within the buffer, typing
    one character, pressing the Left key and pressing the Delete key gives
    the buffer and the cursor back; no step raises.  With the cursor at or
    past the end of the buffer and no selection, the Delete key changes
    nothing in the document. *)
Theorem typing_left_delete_returns s d x pre post :
  EditorWindow.selection_end s = None ->
  content d = pre ++ post ->
  EditorWindow.cursor_pos s = len pre ->
  (exists s1 d1 s2 s3 d3,
      EditorWindow.insert_text s d [x] = Done (s1, d1) /\
      EditorWindow.handle_arrow_key s1 (content d1) Left = Done s2 /\
      EditorWindow.handle_delete s2 d1 = Done (s3, d3) /\
      content d3 = content d /\
      EditorWindow.cursor_pos s3 = EditorWindow.cursor_pos s) /\
  (post = [] -> exists s', EditorWindow.handle_delete s d = Done (s', d)).
Proof.
  intros He Hc Hp. split.
  - unfold EditorWindow.insert_text. rewrite He, type_text_eq.
    set (s1 := EditorWindow.settle _). set (d1 := fst (apply_request d _)).
    assert (Hc1 : content d1 = pre ++ [x] ++ post).
    { subst d1. rewrite apply_request_content, Hc, Hp.
      rewrite (slice_to_eq _ pre post), (slice_from_eq _ pre post) by slice_side.
      reflexivity. }
    pose proof (len_nonneg pre) as Hpre. pose proof (len_nonneg post) as Hpost.
    assert (Hlen1 : len (content d1) = len pre + 1 + len post).
    { rewrite Hc1, !len_app. change (len [x]) with 1. lia. }
    (* Left *)
    set (s2 := EditorWindow.with_x_goal
                 (EditorWindow.with_cursor (EditorWindow.with_selection s1 None None)
                    (len pre)) None).
    assert (HL : EditorWindow.handle_arrow_key s1 (content d1) Left = Done s2).
    { unfold EditorWindow.handle_arrow_key. subst s1 s2. view_simpl.
      change (len [x]) with 1. rewrite Hp.
      destruct (Z.ltb_spec 0 (len pre + 1)) as [_|H]; [|lia].
      replace (len pre + 1 - 1) with (len pre) by lia.
      destruct (Z.ltb_spec 0 (len pre)) as [_|_]; [|reflexivity].
      destruct (py_index_inside (content d1) (len pre)) as [y ->]; [lia|].
      reflexivity. }
    exists s1, d1, s2. eexists. eexists. split; [reflexivity|]. split; [exact HL|].
    rewrite handle_delete_eq by (reflexivity || (subst s2; view_simpl; lia)).
    split; [reflexivity|]. subst s2. view_simpl.
    rewrite apply_request_content, Hc1, Hc.
    rewrite (slice_to_eq _ pre ([x] ++ post)) by slice_side.
    rewrite (slice_from_eq _ (pre ++ [x]) post) by slice_side.
    split; [reflexivity | lia].
  - intros ->. rewrite app_nil_r in Hc.
    unfold EditorWindow.handle_delete. rewrite He.
    destruct (Z.ltb_spec (EditorWindow.cursor_pos s) (len (content d))) as [H|_];
      [rewrite Hc in H; lia|].
    eexists. reflexivity.
Qed.

Lemma typing_left_delete_returns_witness :
  exists s1 d1 s2 s3 d3,
    EditorWindow.insert_text (EditorWindow.with_cursor (EditorWindow.init 0) 1)
      (Document_init (Some (py "ab"))) (py "x") = Done (s1, d1) /\
    EditorWindow.handle_arrow_key s1 (content d1) Left = Done s2 /\
    EditorWindow.handle_delete s2 d1 = Done (s3, d3) /\
    content d3 = py "ab" /\
    EditorWindow.cursor_pos s3 = 1.
Proof.
  apply (proj1 (typing_left_delete_returns
                  (EditorWindow.with_cursor (EditorWindow.init 0) 1)
                  (Document_init (Some (py "ab"))) "x"%char (py "a") (py "b")
                  eq_refl eq_refl eq_refl)).
Defined.

(** X23: a click at one end of a text and a drag to its other end select the
    text, in whichever direction: the selection runs from the lower end to
    the upper one, the cursor is where the drag is, and [copy] gives the text.
    A drag that comes back to where the click was leaves no selection, and
    [copy] gives nothing. *)
Theorem drag_selects_the_text_between s c p q pre mid post :
  c = pre ++ mid ++ post ->
  Z.min p q = len pre ->
  Z.max p q = len pre + len mid ->
  (p <> q ->
   EditorWindow.selection_start (EditorWindow.on_drag (EditorWindow.on_click s p) q)
     = Some (len pre) /\
   EditorWindow.selection_end (EditorWindow.on_drag (EditorWindow.on_click s p) q)
     = Some (len pre + len mid) /\
   EditorWindow.cursor_pos (EditorWindow.on_drag (EditorWindow.on_click s p) q) = q /\
   EditorWindow.copy (EditorWindow.on_drag (EditorWindow.on_click s p) q) c
     = Done (Some mid)) /\
  (p = q ->
   EditorWindow.selection_end (EditorWindow.on_drag (EditorWindow.on_click s p) q) = None /\
   EditorWindow.copy (EditorWindow.on_drag (EditorWindow.on_click s p) q) c = Done None).
Proof.
  intros Hc Hlo Hhi. unfold EditorWindow.on_drag, EditorWindow.on_click.
  cbn [EditorWindow.drag_start]. split; intros Hpq.
  - destruct (Z.eqb_spec q p) as [E|_]; [congruence|]. cbn [negb].
    unfold EditorWindow.copy. view_simpl.
    assert (Hmin : Z.min (Z.min p q) (Z.max p q) = len pre) by lia.
    assert (Hmax : Z.max (Z.min p q) (Z.max p q) = len pre + len mid) by lia.
    rewrite Hmin, Hmax, Hlo, Hhi, Hc.
    rewrite (slice_eq _ pre mid post) by slice_side.
    repeat split.
  - destruct (Z.eqb_spec q p) as [_|N]; [|congruence]. cbn [negb].
    unfold EditorWindow.copy. view_simpl. split; reflexivity.
Qed.

Lemma drag_selects_the_text_between_witness :
  EditorWindow.copy
    (EditorWindow.on_drag (EditorWindow.on_click (EditorWindow.init 0) 4) 1)
    (py "hello") = Done (Some (py "ell")) /\
  EditorWindow.copy
    (EditorWindow.on_drag (EditorWindow.on_click (EditorWindow.init 0) 1) 1)
    (py "hello") = Done None.
Proof.
  split.
  - apply (proj1 (drag_selects_the_text_between (EditorWindow.init 0) (py "hello")
                    4 1 (py "h") (py "ell") (py "o") eq_refl eq_refl eq_refl)).
    discriminate.
  - apply (proj2 (drag_selects_the_text_between (EditorWindow.init 0) (py "hello")
                    1 1 (py "h") [] (py "ello") eq_refl eq_refl eq_refl)).
    reflexivity.
Defined.
